(** * joker.interfaces: a shallow embedding of the HTTP convenience clients

    The development follows the Python package module by module:
    [joker/interfaces/http.py] (the JSON client [HTTPClient] and the
    deprecated [HTTPClientInterface]), [joker/interfaces/printable.py]
    (the document client [PDFClient]) and the prefix helpers exercised by
    [tests/test_utils.py].

    Python objects are values of [pyval]; a method is a computation in the
    monad [M], which threads the receiver [self], collects the observable
    events of the call (logger calls, printed tracebacks, issued requests)
    and may end in an exception. *)

From Stdlib Require Import ZArith String Ascii List Bool PrimFloat.
From stdpp Require Import gmap strings list fin_maps.
Import ListNotations.

Local Open Scope string_scope.
Local Open Scope Z_scope.

(** ** Python values *)

(** The values that reach the clients: what [json.loads] can produce, what a
    caller can pass as keyword options, and the two extra kinds of object the
    code hands to the logger (a [bytes] body and a class such as
    [type(data)]). *)
#[warnings="-register-all"]
Inductive pyval : Type :=
| PNone
| PBool (b : bool)
| PInt (n : Z)
| PFloat (x : float)
| PStr (s : string)
| PBytes (b : list Byte.byte)
| PType (name : string)
| PList (l : list pyval)
| PDict (d : gmap string pyval).

(** [type(v).__name__] *)
Definition type_name (v : pyval) : string :=
  match v with
  | PNone => "NoneType"
  | PBool _ => "bool"
  | PInt _ => "int"
  | PFloat _ => "float"
  | PStr _ => "str"
  | PBytes _ => "bytes"
  | PType _ => "type"
  | PList _ => "list"
  | PDict _ => "dict"
  end.

(** [type(v)] *)
Definition type_of (v : pyval) : pyval := PType (type_name v).

(** [isinstance(v, dict)] *)
Definition isinstance_dict (v : pyval) : bool :=
  match v with PDict _ => true | _ => false end.

(** [v is None] *)
Definition is_None (v : pyval) : bool :=
  match v with PNone => true | _ => false end.

(** Python's truth test [bool(v)]: [None], [False], zero numbers and empty
    strings and containers are false, everything else is true. *)
Definition truthy (v : pyval) : bool :=
  match v with
  | PNone => false
  | PBool b => b
  | PInt n => negb (n =? 0)%Z
  | PFloat x => negb (PrimFloat.eqb x 0%float)
  | PStr s => negb (String.eqb s "")
  | PBytes b => match b with [] => false | _ => true end
  | PType _ => true
  | PList l => match l with [] => false | _ => true end
  | PDict d => match map_to_list d with [] => false | _ => true end
  end.

(** Keyword arguments ([**kwargs]) and other string-keyed dicts. *)
Abbreviation kwargs_t := (gmap string pyval).

(** [d.setdefault(k, v)], as a statement: the dict after the call. *)
Definition setdefault (k : string) (v : pyval) (d : kwargs_t) : kwargs_t :=
  match d !! k with
  | Some _ => d
  | None => <[k := v]> d
  end.

(** [k in d] *)
Definition contains (k : string) (d : kwargs_t) : bool :=
  match d !! k with Some _ => true | None => false end.

(** [str.upper] on the ASCII letters; other characters are left as they are. *)
Definition upper_ascii (c : ascii) : ascii :=
  let n := nat_of_ascii c in
  if ((97 <=? n)%nat && (n <=? 122)%nat)%bool then ascii_of_nat (n - 32) else c.

Fixpoint upper (s : string) : string :=
  match s with
  | EmptyString => EmptyString
  | String c s' => String (upper_ascii c) (upper s')
  end.

(** ** Exceptions, responses, events *)

Inductive exn : Type :=
| AssertionError
| AttributeError (type attr : string)
| KeyError (key : string)
| JSONDecodeError
| LibraryError (what : string).

(** [requests.Response], reduced to the attributes the clients read. The
    [text] property is a computation in the library and the JSON client
    guards one of its uses with [except Exception], so it may fail here.
    [content] is the body as the bytes that have been read: a value of this
    type stands for a response whose body is at hand, as [requests.request]
    returns it. *)
Module Response.
Record t : Type := mk {
  status_code : Z;
  url : string;
  text : exn + string;
  content : list Byte.byte
}.
End Response.

(** Levels of the [logging] module. *)
Definition DEBUG : Z := 10.
Definition INFO : Z := 20.
Definition ERROR : Z := 40.

(** What a call lets the outside world see, in order: a call of a logger
    method (logger name, level, message object and arguments, as in a
    [LogRecord], not yet formatted), [traceback.print_exc()] for the
    exception being handled, and a request handed to the transport. *)
Inductive event : Type :=
| Log (logger : string) (level : Z) (msg : pyval) (args : list pyval)
| PrintExc (e : exn)
| Request (method url : string) (kwargs : kwargs_t).

(** ** The libraries the package calls

    [urllib.parse.urljoin], [json.dumps(_, default=str)], [json.loads] (the
    decoded value, or the exception the decoder raises: [JSONDecodeError] on
    a text that is not JSON, and the others it can raise, such as
    [RecursionError] on deep nesting or [ValueError] on an over-long
    integer), [requests.request], [Logger.isEnabledFor]
    (by logger name), and [joker.interfaces.utils.dump_json_request_to_curl],
    whose source is not part of the files at hand: it is taken as a function
    from method, URL and body to the command line it prints. *)
Class Runtime : Type := {
  urljoin : string -> string -> exn + string;
  json_dumps : pyval -> exn + string;
  json_loads : string -> exn + pyval;
  requests_request : string -> string -> kwargs_t -> exn + Response.t;
  isEnabledFor : string -> Z -> bool;
  dump_json_request_to_curl : string -> string -> pyval -> string
}.

(** Modelled from the spec: [_BaseHTTPClient] lives in
    [joker/interfaces/utils.py], which is not among the sources; the spec
    says it stores the base URL at construction and exposes it to the
    derived clients. *)
Record _BaseHTTPClient : Type := { base_url : string }.

(** ** The method monad: receiver state, event trace, exceptions *)

Record outcome (A : Type) : Type := Outcome {
  result : exn + A;
  self_after : _BaseHTTPClient;
  events : list event
}.
Arguments Outcome {A} _ _ _.
Arguments result {A} _.
Arguments self_after {A} _.
Arguments events {A} _.

Definition M (A : Type) : Type := _BaseHTTPClient -> outcome A.

Definition ret {A} (a : A) : M A := fun self => Outcome (inr a) self [].

Definition raise {A} (e : exn) : M A := fun self => Outcome (inl e) self [].

Definition bind {A B} (m : M A) (k : A -> M B) : M B :=
  fun self =>
    let o := m self in
    match result o with
    | inl e => Outcome (inl e) (self_after o) (events o)
    | inr a =>
        let o' := k a (self_after o) in
        Outcome (result o') (self_after o') (events o ++ events o')
    end.

Notation "'let*' x ':=' m 'in' k" := (bind m (fun x => k))
  (at level 10, x name, m at level 100, k at level 200).
Notation "m '>>' k" := (bind m (fun _ => k))
  (at level 65, right associativity).

(** Reading an attribute of [self]. *)
Definition get_self : M _BaseHTTPClient := fun self => Outcome (inr self) self [].

Definition emit (ev : event) : M unit := fun self => Outcome (inr tt) self [ev].

(** A library call that returns or raises. *)
Definition lift {A} (r : exn + A) : M A :=
  match r with inl e => raise e | inr a => ret a end.

(** [try: m  except Exception: h] *)
Definition try_except {A} (m : M A) (h : exn -> M A) : M A :=
  fun self =>
    let o := m self in
    match result o with
    | inl e =>
        let o' := h e (self_after o) in
        Outcome (result o') (self_after o') (events o ++ events o')
    | inr a => o
    end.

(** [isinstance(e, json.JSONDecodeError)] *)
Definition is_JSONDecodeError (e : exn) : bool :=
  match e with JSONDecodeError => true | _ => false end.

(** [try: m  except E: h], where [caught] tells the exceptions that are
    instances of [E]; any other exception passes through. *)
Definition try_except_on {A}
    (caught : exn -> bool) (m : M A) (h : exn -> M A) : M A :=
  fun self =>
    let o := m self in
    match result o with
    | inl e =>
        if caught e then
          let o' := h e (self_after o) in
          Outcome (result o') (self_after o') (events o ++ events o')
        else o
    | inr a => o
    end.

(** [assert b] *)
Definition assert (b : bool) : M unit :=
  if b then ret tt else raise AssertionError.

(** [v.get(key)]: the [dict] method, an [AttributeError] on the other kinds
    of value in [pyval] (none of them has a [get] attribute). *)
Definition py_get (v : pyval) (key : string) : M pyval :=
  match v with
  | PDict d => ret (default PNone (d !! key))
  | _ => raise (AttributeError (type_name v) "get")
  end.

(** ** joker/interfaces/http.py *)

Module HTTPClient.
Section with_runtime.
Context `{RT : Runtime}.

(** [_logger = logging.getLogger(__name__)] *)
Definition _logger : string := "joker.interfaces.http".

(** [timeout = 30] *)
Definition timeout : Z := 30.

Definition get_url (path : string) : M string :=
  let* self := get_self in
  lift (urljoin (base_url self) path).

Definition err (msg : string) (args : list pyval) : M unit :=
  emit (Log _logger ERROR (PStr msg) args).

(** The [try] statement binds [loaded]: the decoded value, or [None] when
    the handler has run, whose [return] ends the function. *)
Definition _load_json (resp : Response.t) : M pyval :=
  if negb (Response.status_code resp =? 200) then
    err "status_code %s from %s"
        [PInt (Response.status_code resp); PStr (Response.url resp)] >>
    ret PNone
  else
    let* loaded :=
      try_except_on is_JSONDecodeError
        (let* text := lift (Response.text resp) in
         let* data := lift (json_loads text) in
         ret (Some data))
        (fun e =>
           emit (PrintExc e) >>
           err "bad json from %s" [PStr (Response.url resp)] >>
           ret None) in
    match loaded with
    | None => ret PNone
    | Some data =>
        (if negb (isinstance_dict data) then
           err "wrong response type (%s) from %s"
               [type_of data; PStr (Response.url resp)]
         else ret tt) >>
        let* code := py_get data "code" in
        let* code' := py_get data "code" in
        if truthy code' then
          err "non-zero code (%s) from %s" [code; PStr (Response.url resp)] >>
          ret PNone
        else ret data
    end.

(** [level=logging.DEBUG]: [None] stands for a call that leaves the level
    out. *)
Definition log_request_as_curl
    (method url : string) (data : pyval) (level : option Z) : M unit :=
  let level := default DEBUG level in
  if negb (isEnabledFor _logger level) then ret tt
  else
    let cmd := dump_json_request_to_curl method url data in
    emit (Log _logger level (PStr cmd) []).

(** [level=logging.ERROR] *)
Definition log_resp_content (resp : Response.t) (level : option Z) : M unit :=
  let level := default ERROR level in
  if negb (isEnabledFor _logger level) then ret tt
  else
    try_except
      (let* text := lift (Response.text resp) in
       emit (Log _logger level (PStr (String.substring 0 255 text)) []))
      (fun e =>
         emit (Log _logger level (PBytes (firstn 255 (Response.content resp))) []) >>
         emit (PrintExc e)).

(** [requests.request(method, url, **kwargs)] *)
Definition request (method url : string) (kwargs : kwargs_t) : M Response.t :=
  emit (Request method url kwargs) >>
  lift (requests_request method url kwargs).

Definition json_request
    (method path : string) (data : pyval) (kwargs : kwargs_t) : M pyval :=
  let* url := get_url path in
  let method := upper method in
  let kwargs := setdefault "timeout" (PInt timeout) kwargs in
  let* kwargs :=
    if negb (is_None data) then
      let* payload := lift (json_dumps data) in
      let kwargs := <["data" := PStr payload]> kwargs in
      ret (<["headers" :=
               PDict {["Content-type" := PStr "application/json"]}]> kwargs)
    else ret kwargs in
  let* resp := request method url kwargs in
  let* resp_data := _load_json resp in
  if is_None resp_data then
    log_resp_content resp None >>
    log_request_as_curl method url data None >>
    ret PNone
  else
    log_request_as_curl method url data (Some DEBUG) >>
    ret resp_data.

(** The serialized body of line 82; when [data] is [None] nothing is
    serialized and no body is sent (the empty string stands for that). *)
Definition payload_of (data : pyval) : exn + string :=
  if negb (is_None data) then json_dumps data else inr "".

(** The keyword arguments [json_request] hands to the transport, given the
    serialized body: lines 80 to 83 as one expression, for the statements. *)
Definition sent_kwargs (data : pyval) (payload : string) (kwargs : kwargs_t)
  : kwargs_t :=
  let kwargs := setdefault "timeout" (PInt timeout) kwargs in
  if negb (is_None data) then
    <["headers" := PDict {["Content-type" := PStr "application/json"]}]>
      (<["data" := PStr payload]> kwargs)
  else kwargs.

(** What [json_request] does once the transport has answered: lines 85 to
    91, named for the statements. *)
Definition after_response
    (method url : string) (data : pyval) (resp : Response.t) : M pyval :=
  let* resp_data := _load_json resp in
  if is_None resp_data then
    log_resp_content resp None >>
    log_request_as_curl method url data None >>
    ret PNone
  else
    log_request_as_curl method url data (Some DEBUG) >>
    ret resp_data.

Definition json_get (path : string) (kwargs : kwargs_t) : M pyval :=
  assert (negb (contains "data" kwargs)) >>
  json_request "GET" path PNone kwargs.

Definition json_post (path : string) (data : pyval) (kwargs : kwargs_t) : M pyval :=
  assert (negb (contains "data" kwargs)) >>
  json_request "POST" path data kwargs.

End with_runtime.
End HTTPClient.

(** The deprecated wrapper: a dict from service name to base URL. *)
Module HTTPClientInterface.
Section with_runtime.
Context `{RT : Runtime}.

Record t : Type := { _upstream_config : gmap string string }.

(** An optional [str] argument ([path: str = None]) as a Python value. *)
Definition of_optional (path : option string) : pyval :=
  match path with None => PNone | Some s => PStr s end.

(** [__getitem__]: a fresh JSON client on the configured base URL. The
    constructor is that of [_BaseHTTPClient], of which the model keeps the
    stored URL; a statement about the client of a lookup takes the lookup's
    success as a hypothesis. *)
Definition getitem (self : t) (service_name : string) : exn + _BaseHTTPClient :=
  match _upstream_config self !! service_name with
  | None => inl (KeyError service_name)
  | Some base => inr {| base_url := base |}
  end.

Definition get_service_url
    (self : t) (service_name : string) (path : option string) : exn + string :=
  match _upstream_config self !! service_name with
  | None => inl (KeyError service_name)
  | Some base_url =>
      if negb (truthy (of_optional path)) then inr base_url
      else urljoin base_url (default "" path)
  end.

End with_runtime.
End HTTPClientInterface.

(** ** joker/interfaces/printable.py *)

Module PDFClient.
Section with_runtime.
Context `{RT : Runtime}.

Definition _logger : string := "joker.interfaces.printable".

(** [requests.post(url, **kwargs)], the library's shorthand for
    [requests.request('post', url, **kwargs)]. *)
Definition post (url : string) (kwargs : kwargs_t) : M Response.t :=
  emit (Request "post" url kwargs) >>
  lift (requests_request "post" url kwargs).

Definition _generate (tpl_path : string) (data : pyval)
  : M (list Byte.byte * string) :=
  let* self := get_self in
  let* url := lift (urljoin (base_url self) tpl_path) in
  let headers := PDict {["Content-type" := PStr "application/json"]} in
  let* payload := lift (json_dumps data) in
  emit (Log _logger INFO (PStr "initial url: %s") [PStr url]) >>
  let* resp := post url (<["headers" := headers]> {["data" := PStr payload]}) in
  emit (Log _logger INFO (PStr "redirected url:") [PStr (Response.url resp)]) >>
  ret (Response.content resp, Response.url resp).

Definition generate (tpl_path : string) (data : pyval) : M (list Byte.byte) :=
  let* r := _generate tpl_path data in
  ret (fst r).

End with_runtime.
End PDFClient.

(** ** joker/interfaces/utils.py: the prefix helpers *)

Module utils.

(** [value.startswith(p)] *)
Definition startswith (value p : string) : bool := String.prefix p value.

(** Modelled from the spec: [check_inclusive_prefixes] is defined in
    [joker/interfaces/utils.py], which is not among the sources (only its
    test is). The spec: true iff the value starts with at least one entry of
    the prefixes, false for an empty collection. *)
Fixpoint check_inclusive_prefixes (value : string) (prefixes : list string) : bool :=
  match prefixes with
  | [] => false
  | p :: rest =>
      if startswith value p then true else check_inclusive_prefixes value rest
  end.

(** Modelled from the spec: [check_exclusive_prefixes], missing from the
    sources like its sibling. The spec: true iff the value starts with none
    of the entries of the prefixes, true for an empty collection. *)
Fixpoint check_exclusive_prefixes (value : string) (prefixes : list string) : bool :=
  match prefixes with
  | [] => true
  | p :: rest =>
      if startswith value p then false else check_exclusive_prefixes value rest
  end.

End utils.

(** [p] is a prefix of [value]. *)
Definition is_prefix_of (p value : string) : Prop :=
  exists rest, value = String.append p rest.

(** ** Reading an outcome *)

Definition is_request (ev : event) : bool :=
  match ev with Request _ _ _ => true | _ => false end.

(** The requests among the events of a call, in order. *)
Definition requests_of (evs : list event) : list event :=
  List.filter is_request evs.

(** A computation that leaves the receiver as it found it. *)
Definition preserves_self {A} (m : M A) : Prop :=
  forall self, self_after (m self) = self.

(** A computation that hands nothing to the transport. *)
Definition offline {A} (m : M A) : Prop :=
  forall self, Forall (fun ev => is_request ev = false) (events (m self)).

(** ** A canned world for concrete runs

    One client on the base URL of the spec's example, a transport that gives
    the same answer to every request, a logger enabled from [floor] upwards,
    and decoders that know the handful of bodies used below. *)

Definition dq : string := String (ascii_of_nat 34) "".

Definition body_ok : string :=
  "{" ++ dq ++ "code" ++ dq ++ ":0," ++ dq ++ "value" ++ dq ++ ":1}".
Definition body_code7 : string := "{" ++ dq ++ "code" ++ dq ++ ":7}".
Definition body_list : string := "[]".

Definition canned_loads (s : string) : exn + pyval :=
  if String.eqb s body_ok then
    inr (PDict (<["value" := PInt 1]> {["code" := PInt 0]}))
  else if String.eqb s body_code7 then inr (PDict {["code" := PInt 7]})
  else if String.eqb s body_list then inr (PList [])
  else inl JSONDecodeError.

Definition canned_dumps (v : pyval) : exn + string :=
  match v with
  | PNone => inr "null"
  | PBool true => inr "true"
  | PBool false => inr "false"
  | PList [] => inr "[]"
  | _ => inl (LibraryError "TypeError")
  end.

Definition canned_response (status : Z) (body : string) : Response.t :=
  {| Response.status_code := status;
     Response.url := "https://api.example.com/v1/users";
     Response.text := inr body;
     Response.content := list_byte_of_string body |}.

Definition canned (answer : exn + Response.t) (floor : Z) : Runtime :=
  {| urljoin := fun base path => inr (base ++ path)%string;
     json_dumps := canned_dumps;
     json_loads := canned_loads;
     requests_request := fun _ _ _ => answer;
     isEnabledFor := fun _ level => floor <=? level;
     dump_json_request_to_curl :=
       fun method url _ => ("curl -X " ++ method ++ " " ++ url)%string |}.

Definition example_client : _BaseHTTPClient :=
  {| base_url := "https://api.example.com/v1/" |}.

Definition example_config : HTTPClientInterface.t :=
  {| HTTPClientInterface._upstream_config :=
       {["users" := "https://api.example.com/v1/"]} |}.

Definition example_url : string := "https://api.example.com/v1/users".

Definition world_500 : Runtime :=
  canned (inr (canned_response 500 "Internal Server Error")) ERROR.
Definition world_500_debug : Runtime :=
  canned (inr (canned_response 500 "Internal Server Error")) DEBUG.
Definition world_ok : Runtime := canned (inr (canned_response 200 body_ok)) DEBUG.
Definition world_code7 : Runtime :=
  canned (inr (canned_response 200 body_code7)) DEBUG.
Definition world_list : Runtime :=
  canned (inr (canned_response 200 body_list)) DEBUG.
Definition world_down : Runtime :=
  canned (inl (LibraryError "ConnectionError")) DEBUG.

(** A world in which [urljoin] cannot be used at all. *)
Definition world_no_join : Runtime :=
  {| urljoin := fun _ _ => inl (LibraryError "ValueError");
     json_dumps := canned_dumps;
     json_loads := canned_loads;
     requests_request := fun _ _ _ => inl (LibraryError "ConnectionError");
     isEnabledFor := fun _ level => DEBUG <=? level;
     dump_json_request_to_curl := fun method url _ => method |}.

(** ** Views of the JSON client, for the statements *)

Section views.
Context `{RT : Runtime}.

(** The exits of [_load_json], one constructor per way out of the function:
    the early return on the status; an exception of [resp.text] or of
    [json.loads] that the [except] clause does not name; the handled
    [JSONDecodeError], from either of the two; the [AttributeError] of
    [data.get] on a value that is not a dict; the non-zero code; and the
    normal return. *)
Inductive load_json_exit (resp : Response.t) (self : _BaseHTTPClient)
  : outcome pyval -> Prop :=
| exit_status :
    Response.status_code resp <> 200 ->
    load_json_exit resp self
      (Outcome (inr PNone) self
         [Log HTTPClient._logger ERROR (PStr "status_code %s from %s")
              [PInt (Response.status_code resp); PStr (Response.url resp)]])
| exit_unreadable e :
    Response.status_code resp = 200 ->
    Response.text resp = inl e ->
    e <> JSONDecodeError ->
    load_json_exit resp self (Outcome (inl e) self [])
| exit_loads_raises body e :
    Response.status_code resp = 200 ->
    Response.text resp = inr body ->
    json_loads body = inl e ->
    e <> JSONDecodeError ->
    load_json_exit resp self (Outcome (inl e) self [])
| exit_bad_json :
    Response.status_code resp = 200 ->
    Response.text resp = inl JSONDecodeError \/
    (exists body, Response.text resp = inr body /\
                  json_loads body = inl JSONDecodeError) ->
    load_json_exit resp self
      (Outcome (inr PNone) self
         [PrintExc JSONDecodeError;
          Log HTTPClient._logger ERROR (PStr "bad json from %s")
              [PStr (Response.url resp)]])
| exit_not_mapping body v :
    Response.status_code resp = 200 ->
    Response.text resp = inr body ->
    json_loads body = inr v ->
    isinstance_dict v = false ->
    load_json_exit resp self
      (Outcome (inl (AttributeError (type_name v) "get")) self
         [Log HTTPClient._logger ERROR
              (PStr "wrong response type (%s) from %s")
              [type_of v; PStr (Response.url resp)]])
| exit_code body d :
    Response.status_code resp = 200 ->
    Response.text resp = inr body ->
    json_loads body = inr (PDict d) ->
    truthy (default PNone (d !! "code")) = true ->
    load_json_exit resp self
      (Outcome (inr PNone) self
         [Log HTTPClient._logger ERROR (PStr "non-zero code (%s) from %s")
              [default PNone (d !! "code"); PStr (Response.url resp)]])
| exit_ok body d :
    Response.status_code resp = 200 ->
    Response.text resp = inr body ->
    json_loads body = inr (PDict d) ->
    truthy (default PNone (d !! "code")) = false ->
    load_json_exit resp self (Outcome (inr (PDict d)) self []).

(** The record of the curl reproduction, if the logger takes [level]. *)
Definition curl_events (method url : string) (data : pyval) (level : Z)
  : list event :=
  if isEnabledFor HTTPClient._logger level then
    [Log HTTPClient._logger level
         (PStr (dump_json_request_to_curl method url data)) []]
  else [].

End views.

(** A property of every event of a computation. *)
Definition every_event {A} (P : event -> Prop) (m : M A) : Prop :=
  forall self, Forall P (events (m self)).

(** The number of [%s] conversions in a format string ([%%] is a literal
    percent sign). *)
Fixpoint placeholders (fmt : string) : nat :=
  match fmt with
  | String "%" (String "s" rest) => S (placeholders rest)
  | String "%" (String "%" rest) => placeholders rest
  | String _ rest => placeholders rest
  | EmptyString => 0
  end.

(** A logger call that [logging] can format: no arguments (the message is
    then taken as it is), or a format string with one [%s] per argument. *)
Definition formattable (ev : event) : Prop :=
  match ev with
  | Log _ _ msg args =>
      args = [] \/
      exists fmt, msg = PStr fmt /\ placeholders fmt = length args
  | _ => True
  end.

(** More canned worlds: a 200 answer that is not JSON, and an answer whose
    [text] cannot be read. *)
Definition body_html : string := "<html>Bad Gateway</html>".

Definition unreadable_response (status : Z) : Response.t :=
  {| Response.status_code := status;
     Response.url := "https://api.example.com/v1/users";
     Response.text := inl (LibraryError "RuntimeError");
     Response.content := list_byte_of_string "raw" |}.

Definition world_html : Runtime :=
  canned (inr (canned_response 200 body_html)) DEBUG.
Definition world_unreadable : Runtime :=
  canned (inr (unreadable_response 200)) DEBUG.

(** A world whose decoder gives up on every text with an exception that is
    not a [JSONDecodeError]. *)
Definition world_deep : Runtime :=
  {| urljoin := fun base path => inr (base ++ path)%string;
     json_dumps := canned_dumps;
     json_loads := fun _ => inl (LibraryError "RecursionError");
     requests_request := fun _ _ _ => inr (canned_response 200 "[[[[[[[[");
     isEnabledFor := fun _ level => DEBUG <=? level;
     dump_json_request_to_curl :=
       fun method url _ => ("curl -X " ++ method ++ " " ++ url)%string |}.

(** * Properties *)

(** ** The monad operations *)

Lemma bind_inl {A B} (m : M A) (k : A -> M B) self e :
  result (m self) = inl e ->
  bind m k self = Outcome (inl e) (self_after (m self)) (events (m self)).
Proof. intros H. unfold bind. now rewrite H. Qed.

Lemma bind_inr {A B} (m : M A) (k : A -> M B) self a :
  result (m self) = inr a ->
  bind m k self =
    Outcome (result (k a (self_after (m self))))
            (self_after (k a (self_after (m self))))
            (events (m self) ++ events (k a (self_after (m self)))).
Proof. intros H. unfold bind. now rewrite H. Qed.

Lemma outcome_eta {A} (o : outcome A) :
  Outcome (result o) (self_after o) (events o) = o.
Proof. now destruct o. Qed.

(** *** Computations that do not touch the receiver *)

Create HintDb frame.

Lemma preserves_ret {A} (a : A) : preserves_self (ret a).
Proof. now intros self. Qed.

Lemma preserves_raise {A} e : preserves_self (@raise A e).
Proof. now intros self. Qed.

Lemma preserves_emit ev : preserves_self (emit ev).
Proof. now intros self. Qed.

Lemma preserves_get_self : preserves_self get_self.
Proof. now intros self. Qed.

Lemma preserves_lift {A} (r : exn + A) : preserves_self (lift r).
Proof. now destruct r; intros self. Qed.

Lemma preserves_assert b : preserves_self (assert b).
Proof. now destruct b; intros self. Qed.

Lemma preserves_py_get v key : preserves_self (py_get v key).
Proof. now destruct v; intros self. Qed.

Lemma preserves_bind {A B} (m : M A) (k : A -> M B) :
  preserves_self m -> (forall a, preserves_self (k a)) ->
  preserves_self (bind m k).
Proof.
  intros Hm Hk self. unfold bind.
  destruct (result (m self)) as [e|a] eqn:E; simpl.
  - apply Hm.
  - rewrite Hk. apply Hm.
Qed.

Lemma preserves_try_except {A} (m : M A) (h : exn -> M A) :
  preserves_self m -> (forall e, preserves_self (h e)) ->
  preserves_self (try_except m h).
Proof.
  intros Hm Hh self. unfold try_except.
  destruct (result (m self)) as [e|a] eqn:E; simpl.
  - rewrite Hh. apply Hm.
  - apply Hm.
Qed.

Lemma preserves_try_except_on {A} caught (m : M A) (h : exn -> M A) :
  preserves_self m -> (forall e, preserves_self (h e)) ->
  preserves_self (try_except_on caught m h).
Proof.
  intros Hm Hh self. unfold try_except_on.
  destruct (result (m self)) as [e|a] eqn:E; [|apply Hm].
  destruct (caught e); simpl; [|apply Hm].
  rewrite Hh. apply Hm.
Qed.

#[export] Hint Resolve preserves_ret preserves_raise preserves_emit
  preserves_get_self preserves_lift preserves_assert preserves_py_get : frame.

(** *** Computations that issue no request *)

Create HintDb quiet.

Lemma offline_ret {A} (a : A) : offline (ret a).
Proof. intros self. constructor. Qed.

Lemma offline_raise {A} e : offline (@raise A e).
Proof. intros self. constructor. Qed.

Lemma offline_get_self : offline get_self.
Proof. intros self. constructor. Qed.

Lemma offline_lift {A} (r : exn + A) : offline (lift r).
Proof. destruct r; intros self; constructor. Qed.

Lemma offline_assert b : offline (assert b).
Proof. destruct b; intros self; constructor. Qed.

Lemma offline_py_get v key : offline (py_get v key).
Proof. destruct v; intros self; constructor. Qed.

Lemma offline_log logger level msg args : offline (emit (Log logger level msg args)).
Proof. intros self. repeat constructor. Qed.

Lemma offline_print_exc e : offline (emit (PrintExc e)).
Proof. intros self. repeat constructor. Qed.

Lemma offline_bind {A B} (m : M A) (k : A -> M B) :
  offline m -> (forall a, offline (k a)) -> offline (bind m k).
Proof.
  intros Hm Hk self. unfold bind.
  destruct (result (m self)) as [e|a] eqn:E; simpl.
  - apply Hm.
  - apply Forall_app. split; [apply Hm | apply Hk].
Qed.

Lemma offline_try_except {A} (m : M A) (h : exn -> M A) :
  offline m -> (forall e, offline (h e)) -> offline (try_except m h).
Proof.
  intros Hm Hh self. unfold try_except.
  destruct (result (m self)) as [e|a] eqn:E; simpl.
  - apply Forall_app. split; [apply Hm | apply Hh].
  - apply Hm.
Qed.

Lemma offline_try_except_on {A} caught (m : M A) (h : exn -> M A) :
  offline m -> (forall e, offline (h e)) ->
  offline (try_except_on caught m h).
Proof.
  intros Hm Hh self. unfold try_except_on.
  destruct (result (m self)) as [e|a] eqn:E; [|apply Hm].
  destruct (caught e); simpl; [|apply Hm].
  apply Forall_app. split; [apply Hm | apply Hh].
Qed.

#[export] Hint Resolve offline_ret offline_raise offline_get_self offline_lift
  offline_assert offline_py_get offline_log offline_print_exc : quiet.

Lemma offline_no_request {A} (m : M A) self method url kwargs :
  offline m -> ~ In (Request method url kwargs) (events (m self)).
Proof.
  intros Hm Hin. specialize (Hm self).
  rewrite List.Forall_forall in Hm. apply Hm in Hin. discriminate.
Qed.

Lemma offline_requests_of {A} (m : M A) self :
  offline m -> requests_of (events (m self)) = [].
Proof.
  intros Hm. specialize (Hm self). unfold requests_of.
  induction Hm as [|ev evs Hev _ IH]; simpl; [reflexivity|].
  now rewrite Hev.
Qed.

(** One step through the body of a method, for either property. *)
Ltac by_structure db :=
  repeat first
    [ progress intros
    | apply preserves_bind | apply preserves_try_except
    | apply preserves_try_except_on
    | apply offline_bind | apply offline_try_except
    | apply offline_try_except_on
    | solve [auto with db]
    | match goal with
      | |- context [if ?b then _ else _] => destruct b
      | |- context [match ?x with _ => _ end] => destruct x
      end ].

(** ** The JSON client *)

Section json_client.
Context `{RT : Runtime}.

Lemma preserves_load_json resp : preserves_self (HTTPClient._load_json resp).
Proof. unfold HTTPClient._load_json, HTTPClient.err. by_structure frame. Qed.

Lemma preserves_log_request_as_curl method url data level :
  preserves_self (HTTPClient.log_request_as_curl method url data level).
Proof. unfold HTTPClient.log_request_as_curl. by_structure frame. Qed.

Lemma preserves_log_resp_content resp level :
  preserves_self (HTTPClient.log_resp_content resp level).
Proof. unfold HTTPClient.log_resp_content. by_structure frame. Qed.

Lemma preserves_get_url path : preserves_self (HTTPClient.get_url path).
Proof. unfold HTTPClient.get_url. by_structure frame. Qed.

Lemma preserves_request method url kwargs :
  preserves_self (HTTPClient.request method url kwargs).
Proof. unfold HTTPClient.request. by_structure frame. Qed.

#[local] Hint Resolve preserves_load_json preserves_log_request_as_curl
  preserves_log_resp_content preserves_get_url preserves_request : frame.

Lemma preserves_json_request method path data kwargs :
  preserves_self (HTTPClient.json_request method path data kwargs).
Proof. unfold HTTPClient.json_request. by_structure frame. Qed.

#[local] Hint Resolve preserves_json_request : frame.

Lemma preserves_json_get path kwargs :
  preserves_self (HTTPClient.json_get path kwargs).
Proof. unfold HTTPClient.json_get. by_structure frame. Qed.

Lemma preserves_json_post path data kwargs :
  preserves_self (HTTPClient.json_post path data kwargs).
Proof. unfold HTTPClient.json_post. by_structure frame. Qed.

Lemma offline_load_json resp : offline (HTTPClient._load_json resp).
Proof. unfold HTTPClient._load_json, HTTPClient.err. by_structure quiet. Qed.

Lemma offline_log_request_as_curl method url data level :
  offline (HTTPClient.log_request_as_curl method url data level).
Proof. unfold HTTPClient.log_request_as_curl. by_structure quiet. Qed.

Lemma offline_log_resp_content resp level :
  offline (HTTPClient.log_resp_content resp level).
Proof. unfold HTTPClient.log_resp_content. by_structure quiet. Qed.

#[local] Hint Resolve offline_load_json offline_log_request_as_curl
  offline_log_resp_content : quiet.

Lemma offline_after_response method url data resp :
  offline (HTTPClient.after_response method url data resp).
Proof. unfold HTTPClient.after_response. by_structure quiet. Qed.

(** [json_request], stage by stage. *)
Lemma json_request_unfold self method path data kwargs :
  HTTPClient.json_request method path data kwargs self =
    match urljoin (base_url self) path with
    | inl e => Outcome (inl e) self []
    | inr url =>
        match HTTPClient.payload_of data with
        | inl e => Outcome (inl e) self []
        | inr payload =>
            let m := upper method in
            let kw := HTTPClient.sent_kwargs data payload kwargs in
            match requests_request m url kw with
            | inl e => Outcome (inl e) self [Request m url kw]
            | inr resp =>
                let o := HTTPClient.after_response m url data resp self in
                Outcome (result o) (self_after o) (Request m url kw :: events o)
            end
        end
    end.
Proof.
  unfold HTTPClient.json_request, HTTPClient.after_response,
    HTTPClient.get_url, HTTPClient.request, HTTPClient.sent_kwargs,
    HTTPClient.payload_of, bind.
  simpl.
  destruct (urljoin (base_url self) path) as [e|url]; simpl; [reflexivity|].
  destruct (is_None data); simpl.
  - destruct (requests_request _ _ _) as [e|resp]; simpl; reflexivity.
  - destruct (json_dumps data) as [e|payload]; simpl; [reflexivity|].
    destruct (requests_request _ _ _) as [e|resp]; simpl; reflexivity.
Qed.

Lemma json_request_inv self method path data kwargs m u kw :
  In (Request m u kw)
     (events (HTTPClient.json_request method path data kwargs self)) ->
  m = upper method /\
  urljoin (base_url self) path = inr u /\
  (exists payload,
      HTTPClient.payload_of data = inr payload /\
      kw = HTTPClient.sent_kwargs data payload kwargs) /\
  HTTPClient.json_request method path data kwargs self =
    match requests_request m u kw with
    | inl e => Outcome (inl e) self [Request m u kw]
    | inr resp =>
        let o := HTTPClient.after_response m u data resp self in
        Outcome (result o) (self_after o) (Request m u kw :: events o)
    end.
Proof.
  rewrite json_request_unfold.
  destruct (urljoin (base_url self) path) as [e|url]; [intros []|].
  destruct (HTTPClient.payload_of data) as [e|payload]; [intros []|].
  cbv zeta. intros Hin.
  assert (Request m u kw =
          Request (upper method) url
                  (HTTPClient.sent_kwargs data payload kwargs)) as Heq.
  { destruct (requests_request _ _ _) as [e|resp]; simpl in Hin.
    - destruct Hin as [H|[]]. now symmetry.
    - destruct Hin as [H|H]; [now symmetry|].
      now apply offline_no_request in H; [|apply offline_after_response]. }
  injection Heq as -> -> ->. repeat split; eauto.
Qed.

(** *** What [_load_json] makes of a response *)

Lemma load_json_non200 resp self :
  Response.status_code resp <> 200 ->
  HTTPClient._load_json resp self =
    Outcome (inr PNone) self
      [Log HTTPClient._logger ERROR (PStr "status_code %s from %s")
           [PInt (Response.status_code resp); PStr (Response.url resp)]].
Proof.
  intros H. unfold HTTPClient._load_json.
  apply Z.eqb_neq in H. now rewrite H.
Qed.

Lemma load_json_mapping resp self body d :
  Response.status_code resp = 200 ->
  Response.text resp = inr body ->
  json_loads body = inr (PDict d) ->
  HTTPClient._load_json resp self =
    let code := default PNone (d !! "code") in
    if truthy code then
      Outcome (inr PNone) self
        [Log HTTPClient._logger ERROR (PStr "non-zero code (%s) from %s")
             [code; PStr (Response.url resp)]]
    else Outcome (inr (PDict d)) self [].
Proof.
  intros Hs Ht Hj. unfold HTTPClient._load_json, bind, try_except_on.
  rewrite Hs, Ht. simpl. rewrite Hj. simpl.
  now destruct (truthy (default PNone (d !! "code"))).
Qed.

Lemma load_json_not_mapping resp self body data :
  Response.status_code resp = 200 ->
  Response.text resp = inr body ->
  json_loads body = inr data ->
  isinstance_dict data = false ->
  HTTPClient._load_json resp self =
    Outcome (inl (AttributeError (type_name data) "get")) self
      [Log HTTPClient._logger ERROR (PStr "wrong response type (%s) from %s")
           [type_of data; PStr (Response.url resp)]].
Proof.
  intros Hs Ht Hj Hd. unfold HTTPClient._load_json, bind, try_except_on.
  rewrite Hs, Ht. simpl. rewrite Hj. simpl. rewrite Hd. simpl.
  now destruct data.
Qed.

(** *** The two logging helpers always return *)

Lemma log_request_as_curl_run method url data level self :
  HTTPClient.log_request_as_curl method url data level self =
    let level := default DEBUG level in
    Outcome (inr tt) self
      (if isEnabledFor HTTPClient._logger level then
         [Log HTTPClient._logger level
              (PStr (dump_json_request_to_curl method url data)) []]
       else []).
Proof.
  unfold HTTPClient.log_request_as_curl. cbv zeta.
  now destruct (isEnabledFor HTTPClient._logger (default DEBUG level)).
Qed.

Lemma log_resp_content_returns resp level self :
  result (HTTPClient.log_resp_content resp level self) = inr tt.
Proof.
  unfold HTTPClient.log_resp_content, try_except, bind. cbv zeta.
  destruct (isEnabledFor HTTPClient._logger _); simpl; [|reflexivity].
  now destruct (Response.text resp).
Qed.

(** *** After the answer *)

Lemma after_response_non200 method url data resp self :
  Response.status_code resp <> 200 ->
  HTTPClient.after_response method url data resp self =
    Outcome (inr PNone) self
      (Log HTTPClient._logger ERROR (PStr "status_code %s from %s")
           [PInt (Response.status_code resp); PStr (Response.url resp)]
       :: events (HTTPClient.log_resp_content resp None self)
       ++ (if isEnabledFor HTTPClient._logger DEBUG then
             [Log HTTPClient._logger DEBUG
                  (PStr (dump_json_request_to_curl method url data)) []]
           else [])).
Proof.
  intros Hs. unfold HTTPClient.after_response.
  rewrite (bind_inr _ _ self PNone) by now rewrite load_json_non200.
  rewrite load_json_non200 by assumption. cbn [self_after events is_None].
  rewrite (bind_inr _ _ self tt) by apply log_resp_content_returns.
  rewrite preserves_log_resp_content.
  rewrite (bind_inr _ _ self tt) by now rewrite log_request_as_curl_run.
  rewrite log_request_as_curl_run. cbn [self_after events result ret].
  now rewrite app_nil_r.
Qed.

Lemma after_response_mapping method url data resp self body d :
  Response.status_code resp = 200 ->
  Response.text resp = inr body ->
  json_loads body = inr (PDict d) ->
  let code := default PNone (d !! "code") in
  result (HTTPClient.after_response method url data resp self) =
    inr (if truthy code then PNone else PDict d) /\
  (truthy code = true ->
   In (Log HTTPClient._logger ERROR (PStr "non-zero code (%s) from %s")
           [code; PStr (Response.url resp)])
      (events (HTTPClient.after_response method url data resp self))).
Proof.
  intros Hs Ht Hj. cbv zeta. unfold HTTPClient.after_response, bind.
  rewrite (load_json_mapping _ _ _ _ Hs Ht Hj). cbv zeta.
  destruct (truthy (default PNone (d !! "code")));
    cbn [result self_after events is_None].
  - rewrite log_resp_content_returns, preserves_log_resp_content.
    rewrite log_request_as_curl_run. cbn [result events].
    split; [reflexivity | intros _; now left].
  - rewrite log_request_as_curl_run. cbn [result events].
    split; [reflexivity | discriminate].
Qed.

Lemma after_response_not_mapping method url data resp self body v :
  Response.status_code resp = 200 ->
  Response.text resp = inr body ->
  json_loads body = inr v ->
  isinstance_dict v = false ->
  HTTPClient.after_response method url data resp self =
    Outcome (inl (AttributeError (type_name v) "get")) self
      [Log HTTPClient._logger ERROR (PStr "wrong response type (%s) from %s")
           [type_of v; PStr (Response.url resp)]].
Proof.
  intros Hs Ht Hj Hd. unfold HTTPClient.after_response, bind.
  now rewrite (load_json_not_mapping _ _ _ _ Hs Ht Hj Hd).
Qed.

(** *** The claims about [json_request] *)

(** Behind C1, for every body: a 200 answer whose body decodes to anything but
    a mapping makes [json_request] log the type mismatch and then end in the
    [AttributeError] of [data.get]. *)
Lemma json_request_not_mapping_raises
    self method path data kwargs m u kw resp body v :
  In (Request m u kw)
     (events (HTTPClient.json_request method path data kwargs self)) ->
  requests_request m u kw = inr resp ->
  Response.status_code resp = 200 ->
  Response.text resp = inr body ->
  json_loads body = inr v ->
  isinstance_dict v = false ->
  HTTPClient.json_request method path data kwargs self =
    Outcome (inl (AttributeError (type_name v) "get")) self
      [Request m u kw;
       Log HTTPClient._logger ERROR (PStr "wrong response type (%s) from %s")
           [type_of v; PStr (Response.url resp)]].
Proof.
  intros Hin Hr Hs Ht Hj Hd.
  destruct (json_request_inv _ _ _ _ _ _ _ _ Hin) as (_ & _ & _ & ->).
  rewrite Hr. cbv zeta.
  now rewrite (after_response_not_mapping _ _ _ _ _ _ _ Hs Ht Hj Hd).
Qed.

(** C3: when the transport's answer to the request has a status other than
    200, [json_request] returns [None]; no exception leaves it. *)
Theorem json_request_non200_returns_none
    self method path data kwargs m u kw resp :
  In (Request m u kw)
     (events (HTTPClient.json_request method path data kwargs self)) ->
  requests_request m u kw = inr resp ->
  Response.status_code resp <> 200 ->
  result (HTTPClient.json_request method path data kwargs self) = inr PNone.
Proof.
  intros Hin Hr Hs.
  destruct (json_request_inv _ _ _ _ _ _ _ _ Hin) as (_ & _ & _ & ->).
  rewrite Hr. cbv zeta. now rewrite after_response_non200.
Qed.

(** The failure path as the code stands: when the answer has a status other
    than 200, the events of [json_request] are the request, the status
    error, the body preview and, last, the curl reproduction at the level
    [log_request_as_curl] defaults to, DEBUG, present only if the logger is
    enabled for DEBUG. *)
Theorem json_request_non200_curl_at_debug
    self method path data kwargs m u kw resp :
  In (Request m u kw)
     (events (HTTPClient.json_request method path data kwargs self)) ->
  requests_request m u kw = inr resp ->
  Response.status_code resp <> 200 ->
  events (HTTPClient.json_request method path data kwargs self) =
    Request m u kw
    :: Log HTTPClient._logger ERROR (PStr "status_code %s from %s")
           [PInt (Response.status_code resp); PStr (Response.url resp)]
    :: events (HTTPClient.log_resp_content resp None self)
    ++ (if isEnabledFor HTTPClient._logger DEBUG then
          [Log HTTPClient._logger DEBUG
               (PStr (dump_json_request_to_curl m u data)) []]
        else []).
Proof.
  intros Hin Hr Hs.
  destruct (json_request_inv _ _ _ _ _ _ _ _ Hin) as (_ & _ & _ & ->).
  rewrite Hr. cbv zeta. now rewrite after_response_non200.
Qed.

(** C4: when the answer has status 200 and its body decodes to a mapping,
    [json_request] returns that mapping if its "code" entry is absent or
    falsy, and logs the non-zero code and returns [None] if it is truthy. *)
Theorem json_request_mapping_code
    self method path data kwargs m u kw resp body d :
  In (Request m u kw)
     (events (HTTPClient.json_request method path data kwargs self)) ->
  requests_request m u kw = inr resp ->
  Response.status_code resp = 200 ->
  Response.text resp = inr body ->
  json_loads body = inr (PDict d) ->
  ((d !! "code" = None \/ exists c, d !! "code" = Some c /\ truthy c = false) ->
   result (HTTPClient.json_request method path data kwargs self)
   = inr (PDict d)) /\
  (forall c, d !! "code" = Some c -> truthy c = true ->
   result (HTTPClient.json_request method path data kwargs self) = inr PNone /\
   In (Log HTTPClient._logger ERROR (PStr "non-zero code (%s) from %s")
           [c; PStr (Response.url resp)])
      (events (HTTPClient.json_request method path data kwargs self))).
Proof.
  intros Hin Hr Hs Ht Hj.
  destruct (json_request_inv _ _ _ _ _ _ _ _ Hin) as (_ & _ & _ & ->).
  rewrite Hr. cbv zeta. cbn [result events].
  destruct (after_response_mapping m u data resp self body d Hs Ht Hj)
    as [Hres Hlog].
  rewrite Hres. split.
  - intros [Hc | (c & Hc & Hf)]; rewrite Hc; simpl; [reflexivity|].
    now rewrite Hf.
  - intros c Hc Htrue. rewrite Hc in *. simpl in *. rewrite Htrue in *.
    split; [reflexivity|]. right. now apply Hlog.
Qed.

(** C5: [json_request] issues one request, and it carries the timeout the
    caller gave in the options, or 30 when the caller gave none. *)
Theorem json_request_timeout self method path data kwargs u payload :
  urljoin (base_url self) path = inr u ->
  HTTPClient.payload_of data = inr payload ->
  exists kw,
    requests_of (events (HTTPClient.json_request method path data kwargs self))
      = [Request (upper method) u kw] /\
    kw !! "timeout" =
      Some (match kwargs !! "timeout" with
            | Some t => t
            | None => PInt 30
            end).
Proof.
  intros Hu Hp. exists (HTTPClient.sent_kwargs data payload kwargs). split.
  - rewrite json_request_unfold, Hu, Hp. cbv zeta.
    destruct (requests_request _ _ _) as [e|resp]; [reflexivity|].
    cbn [events]. unfold requests_of. simpl. f_equal.
    apply (offline_requests_of _ self), offline_after_response.
  - unfold HTTPClient.sent_kwargs, setdefault, HTTPClient.timeout.
    destruct (negb (is_None data));
      destruct (kwargs !! "timeout") eqn:E; now simplify_map_eq.
Qed.

(** C6: [json_get] called with a [data] option fails on its assertion with
    nothing done; called without, it is [json_request] with method GET and
    no body, and the request it issues carries none. *)
Theorem json_get_forbids_body self path kwargs :
  (is_Some (kwargs !! "data") ->
   HTTPClient.json_get path kwargs self = Outcome (inl AssertionError) self []) /\
  (kwargs !! "data" = None ->
   HTTPClient.json_get path kwargs self
   = HTTPClient.json_request "GET" path PNone kwargs self /\
   forall m u kw,
     In (Request m u kw) (events (HTTPClient.json_get path kwargs self)) ->
     m = "GET" /\ kw !! "data" = None).
Proof.
  split.
  - intros [v Hv]. unfold HTTPClient.json_get, contains. now rewrite Hv.
  - intros Hn.
    assert (HTTPClient.json_get path kwargs self
            = HTTPClient.json_request "GET" path PNone kwargs self) as Heq.
    { unfold HTTPClient.json_get, contains, bind. rewrite Hn. simpl.
      apply outcome_eta. }
    split; [exact Heq|].
    intros m u kw. rewrite Heq. intros Hin.
    destruct (json_request_inv _ _ _ _ _ _ _ _ Hin)
      as (-> & _ & (p & _ & ->) & _).
    split; [reflexivity|].
    unfold HTTPClient.sent_kwargs, setdefault. simpl.
    destruct (kwargs !! "timeout"); now simplify_map_eq.
Qed.

End json_client.

(** ** The document client *)

Section pdf_client.
Context `{RT : Runtime}.

Lemma preserves_post url kwargs : preserves_self (PDFClient.post url kwargs).
Proof. unfold PDFClient.post. by_structure frame. Qed.

#[local] Hint Resolve preserves_post : frame.

Lemma preserves_generate' tpl_path data :
  preserves_self (PDFClient._generate tpl_path data).
Proof. unfold PDFClient._generate. by_structure frame. Qed.

#[local] Hint Resolve preserves_generate' : frame.

Lemma preserves_generate tpl_path data :
  preserves_self (PDFClient.generate tpl_path data).
Proof. unfold PDFClient.generate. by_structure frame. Qed.

(** [_generate], stage by stage. *)
Lemma generate_unfold' self tpl_path data :
  PDFClient._generate tpl_path data self =
    match urljoin (base_url self) tpl_path with
    | inl e => Outcome (inl e) self []
    | inr url =>
        match json_dumps data with
        | inl e => Outcome (inl e) self []
        | inr payload =>
            let kw :=
              <["headers" :=
                  PDict {["Content-type" := PStr "application/json"]}]>
                ({["data" := PStr payload]} : kwargs_t) in
            let sent :=
              [Log PDFClient._logger INFO (PStr "initial url: %s") [PStr url];
               Request "post" url kw] in
            match requests_request "post" url kw with
            | inl e => Outcome (inl e) self sent
            | inr resp =>
                Outcome (inr (Response.content resp, Response.url resp)) self
                  (sent ++ [Log PDFClient._logger INFO (PStr "redirected url:")
                                [PStr (Response.url resp)]])
            end
        end
    end.
Proof.
  unfold PDFClient._generate, PDFClient.post, bind. simpl.
  destruct (urljoin (base_url self) tpl_path) as [e|url]; simpl; [reflexivity|].
  destruct (json_dumps data) as [e|payload]; simpl; [reflexivity|].
  destruct (requests_request _ _ _) as [e|resp]; simpl; reflexivity.
Qed.

Lemma generate_fst self tpl_path data :
  PDFClient.generate tpl_path data self =
    let o := PDFClient._generate tpl_path data self in
    Outcome (match result o with inl e => inl e | inr r => inr (fst r) end)
            (self_after o) (events o).
Proof.
  unfold PDFClient.generate, bind. cbv zeta.
  destruct (result (PDFClient._generate tpl_path data self)); simpl;
    [reflexivity|].
  now rewrite app_nil_r.
Qed.

(** C8: whatever the transport does with the request of [generate] comes
    back to the caller as it is: its exception is the exception of
    [generate] and of [_generate]; its response, of whatever status and
    body, gives the raw content for [generate] and the content with the
    response's URL for [_generate]. *)
Theorem generate_passes_through self tpl_path data m u kw :
  In (Request m u kw) (events (PDFClient.generate tpl_path data self)) ->
  (forall e, requests_request m u kw = inl e ->
     result (PDFClient.generate tpl_path data self) = inl e /\
     result (PDFClient._generate tpl_path data self) = inl e) /\
  (forall resp, requests_request m u kw = inr resp ->
     result (PDFClient.generate tpl_path data self)
       = inr (Response.content resp) /\
     result (PDFClient._generate tpl_path data self)
       = inr (Response.content resp, Response.url resp)).
Proof.
  rewrite generate_fst. cbv zeta. cbn [events result].
  rewrite generate_unfold'.
  destruct (urljoin (base_url self) tpl_path) as [e|url]; [intros []|].
  destruct (json_dumps data) as [e|payload]; [intros []|].
  cbv zeta. intros Hin.
  assert (Request m u kw =
          Request "post" url
            (<["headers" :=
                 PDict {["Content-type" := PStr "application/json"]}]>
               ({["data" := PStr payload]} : kwargs_t))) as Heq.
  { destruct (requests_request "post" url _); simpl in Hin;
      intuition congruence. }
  injection Heq as -> -> ->.
  split; intros x Hx; rewrite Hx; now split.
Qed.

End pdf_client.

(** ** Both clients *)

(** C9: no operation of the JSON client or of the document client changes
    the base URL stored in the client. *)
Theorem base_url_unchanged `{RT : Runtime} (self : _BaseHTTPClient) :
  (forall path,
     base_url (self_after (HTTPClient.get_url path self)) = base_url self) /\
  (forall method path data kwargs,
     base_url (self_after (HTTPClient.json_request method path data kwargs self))
     = base_url self) /\
  (forall path kwargs,
     base_url (self_after (HTTPClient.json_get path kwargs self))
     = base_url self) /\
  (forall path data kwargs,
     base_url (self_after (HTTPClient.json_post path data kwargs self))
     = base_url self) /\
  (forall tpl_path data,
     base_url (self_after (PDFClient.generate tpl_path data self))
     = base_url self) /\
  (forall tpl_path data,
     base_url (self_after (PDFClient._generate tpl_path data self))
     = base_url self).
Proof.
  repeat split; intros.
  - now rewrite preserves_get_url.
  - now rewrite preserves_json_request.
  - now rewrite preserves_json_get.
  - now rewrite preserves_json_post.
  - now rewrite preserves_generate.
  - now rewrite preserves_generate'.
Qed.

(** ** The deprecated wrapper *)

(** C10: for a configured service, [get_service_url] with no path or with
    the empty path is the configured base URL itself, whatever [urljoin]
    would do; with a non-empty path it is [urljoin] of the two. *)
Theorem get_service_url_path `{RT : Runtime}
    (cfg : HTTPClientInterface.t) (service_name base : string) :
  HTTPClientInterface._upstream_config cfg !! service_name = Some base ->
  HTTPClientInterface.get_service_url cfg service_name None = inr base /\
  HTTPClientInterface.get_service_url cfg service_name (Some "") = inr base /\
  (forall path, path <> "" ->
     HTTPClientInterface.get_service_url cfg service_name (Some path)
     = urljoin base path).
Proof.
  intros Hc. unfold HTTPClientInterface.get_service_url. rewrite Hc.
  repeat split. intros path Hp. simpl.
  apply String.eqb_neq in Hp. now rewrite Hp.
Qed.

(** ** The prefix helpers *)

Lemma startswith_spec value p :
  utils.startswith value p = true <-> is_prefix_of p value.
Proof.
  unfold utils.startswith, is_prefix_of.
  revert value. induction p as [|c p IH]; intros value.
  - split; [intros _; now exists value | intros _; now destruct value].
  - destruct value as [|c' value]; simpl.
    + split; [discriminate | intros [rest H]; discriminate].
    + destruct (Ascii.ascii_dec c c') as [->|Hne].
      * rewrite IH. split; intros [rest H]; exists rest.
        -- now rewrite H.
        -- change (String c' value = String c' (String.append p rest)) in H.
           congruence.
      * split; [discriminate|]. intros [rest H].
        change (String c' value = String c (String.append p rest)) in H.
        congruence.
Qed.

(** C7: [check_inclusive_prefixes] is true exactly when some entry is a
    prefix of the value, [check_exclusive_prefixes] exactly when none is; on
    no prefixes at all the first is false and the second true. *)
Theorem check_prefixes_spec (s : string) (P : list string) :
  (utils.check_inclusive_prefixes s P = true
   <-> exists p, In p P /\ is_prefix_of p s) /\
  (utils.check_exclusive_prefixes s P = true
   <-> forall p, In p P -> ~ is_prefix_of p s) /\
  utils.check_inclusive_prefixes s [] = false /\
  utils.check_exclusive_prefixes s [] = true.
Proof.
  split; [|split; [|split; reflexivity]].
  - induction P as [|q P IH]; simpl.
    + split; [discriminate | intros (p & [] & _)].
    + destruct (utils.startswith s q) eqn:E.
      * split; [|reflexivity].
        intros _. exists q. split; [now left | now apply startswith_spec].
      * rewrite IH. split.
        -- intros (p & Hin & Hp). eauto.
        -- intros (p & [-> | Hin] & Hp); [|eauto].
           apply startswith_spec in Hp. congruence.
  - induction P as [|q P IH]; simpl.
    + split; [intros _ p [] | reflexivity].
    + destruct (utils.startswith s q) eqn:E.
      * split; [discriminate|].
        intros H. exfalso. apply (H q); [now left | now apply startswith_spec].
      * rewrite IH. split.
        -- intros H p [<- | Hin] Hp; [|now apply (H p)].
           apply startswith_spec in Hp. congruence.
        -- intros H p Hin. apply H. now right.
Qed.

(** ** Concrete runs *)

(** The assertions of [tests/test_utils.py]. *)
Example test_multicheck :
  utils.check_inclusive_prefixes "hello-world" ["good"; "hello"] = true /\
  utils.check_inclusive_prefixes "hello-world" ["bad"; "ello"] = false /\
  utils.check_inclusive_prefixes "hello-world" [] = false /\
  utils.check_exclusive_prefixes "hello-world" ["world"; "ello"] = true /\
  utils.check_exclusive_prefixes "hello-world" [] = true /\
  utils.check_exclusive_prefixes "hello-world" ["hello"; "ello"] = false.
Proof. repeat split. Qed.

(** C1: the claim is that a 200 answer with a JSON list as body is logged as
    a type mismatch and no exception escapes. On the body [[]] the code logs
    the mismatch and then raises [AttributeError] from [data.get]: that
    exception is what [json_request] ends in. *)
Theorem json_request_list_body_raises :
  HTTPClient.json_request (RT := world_list) "get" "users" PNone ∅
    example_client =
  Outcome (inl (AttributeError "list" "get")) example_client
    [Request "GET" example_url {["timeout" := PInt 30]};
     Log HTTPClient._logger ERROR (PStr "wrong response type (%s) from %s")
         [PType "list"; PStr example_url]].
Proof. vm_compute. reflexivity. Qed.

(** C2: the claim is that on an answer with a status other than 200 the
    curl reproduction of the request is logged at error level. On a 500
    answer the code, which leaves the level out of the call on this path,
    hands it to the logger at DEBUG when the logger is enabled from DEBUG
    up, so that no record at level ERROR carries it; with the logger enabled
    from ERROR up, no record at any level carries it. *)
Lemma json_request_non200_no_curl_at_error :
  let kw : kwargs_t := {["timeout" := PInt 30]} in
  let resp := canned_response 500 "Internal Server Error" in
  let cmd := PStr "curl -X GET https://api.example.com/v1/users" in
  let run (w : Runtime) :=
    HTTPClient.json_request (RT := w) "get" "users" PNone ∅ example_client in
  In (Request "GET" example_url kw) (events (run world_500_debug)) /\
  requests_request (Runtime := world_500_debug) "GET" example_url kw = inr resp /\
  Response.status_code resp <> 200 /\
  dump_json_request_to_curl (Runtime := world_500_debug) "GET" example_url PNone
    = "curl -X GET https://api.example.com/v1/users" /\
  ~ (exists logger args,
        In (Log logger ERROR cmd args) (events (run world_500_debug))) /\
  ~ (exists logger level args,
        In (Log logger level cmd args) (events (run world_500))).
Proof.
  cbv zeta. repeat split.
  - vm_compute. now left.
  - vm_compute. discriminate.
  - intros (logger & args & H). vm_compute in H.
    destruct H as [H|[H|[H|[H|[]]]]]; discriminate.
  - intros (logger & level & args & H). vm_compute in H.
    destruct H as [H|[H|[H|[]]]]; discriminate.
Qed.

Lemma json_request_non200_returns_none_witness :
  result (HTTPClient.json_request (RT := world_500) "get" "users" PNone ∅
            example_client) = inr PNone.
Proof.
  apply (json_request_non200_returns_none (RT := world_500)
           example_client "get" "users" PNone ∅
           "GET" example_url {["timeout" := PInt 30]}
           (canned_response 500 "Internal Server Error")).
  - vm_compute. now left.
  - reflexivity.
  - vm_compute. discriminate.
Defined.

Lemma json_request_mapping_code_witness :
  result (HTTPClient.json_request (RT := world_ok) "get" "users" PNone ∅
            example_client)
    = inr (PDict (<["value" := PInt 1]> {["code" := PInt 0]})) /\
  result (HTTPClient.json_request (RT := world_code7) "get" "users" PNone ∅
            example_client)
    = inr PNone.
Proof.
  split.
  - apply (json_request_mapping_code (RT := world_ok)
             example_client "get" "users" PNone ∅
             "GET" example_url {["timeout" := PInt 30]}
             (canned_response 200 body_ok) body_ok).
    + vm_compute. now left.
    + reflexivity.
    + reflexivity.
    + reflexivity.
    + vm_compute. reflexivity.
    + right. exists (PInt 0). split; vm_compute; reflexivity.
  - apply (json_request_mapping_code (RT := world_code7)
             example_client "get" "users" PNone ∅
             "GET" example_url {["timeout" := PInt 30]}
             (canned_response 200 body_code7) body_code7
             {["code" := PInt 7]}) with (c := PInt 7).
    + vm_compute. now left.
    + reflexivity.
    + reflexivity.
    + reflexivity.
    + vm_compute. reflexivity.
    + vm_compute. reflexivity.
    + reflexivity.
Defined.

Lemma json_request_timeout_witness :
  (exists kw,
      requests_of
        (events (HTTPClient.json_request (RT := world_ok) "get" "users" PNone ∅
                   example_client))
        = [Request "GET" example_url kw] /\
      kw !! "timeout" = Some (PInt 30)) /\
  (exists kw,
      requests_of
        (events (HTTPClient.json_request (RT := world_ok) "get" "users" PNone
                   {["timeout" := PFloat 2.5]} example_client))
        = [Request "GET" example_url kw] /\
      kw !! "timeout" = Some (PFloat 2.5)).
Proof.
  split.
  - destruct (json_request_timeout (RT := world_ok)
                example_client "get" "users" PNone ∅ example_url "")
      as (kw & Hreq & Hto); [reflexivity | reflexivity |].
    exists kw. split; [exact Hreq | rewrite Hto; vm_compute; reflexivity].
  - destruct (json_request_timeout (RT := world_ok)
                example_client "get" "users" PNone {["timeout" := PFloat 2.5]}
                example_url "")
      as (kw & Hreq & Hto); [reflexivity | reflexivity |].
    exists kw. split; [exact Hreq | rewrite Hto; vm_compute; reflexivity].
Defined.

Lemma json_get_forbids_body_witness :
  HTTPClient.json_get (RT := world_ok) "users" {["data" := PStr "x"]}
    example_client
  = Outcome (inl AssertionError) example_client [].
Proof.
  apply (json_get_forbids_body (RT := world_ok) example_client "users"
           {["data" := PStr "x"]}).
  exists (PStr "x"). vm_compute. reflexivity.
Defined.

Lemma generate_passes_through_witness :
  result (PDFClient.generate (RT := world_down) "invoice" (PBool true)
            example_client)
    = inl (LibraryError "ConnectionError") /\
  result (PDFClient.generate (RT := world_500) "invoice" (PBool true)
            example_client)
    = inr (list_byte_of_string "Internal Server Error").
Proof.
  split.
  - apply (generate_passes_through (RT := world_down)
             example_client "invoice" (PBool true) "post"
             "https://api.example.com/v1/invoice"
             (<["headers" :=
                  PDict {["Content-type" := PStr "application/json"]}]>
                {["data" := PStr "true"]})).
    + vm_compute. right. now left.
    + reflexivity.
  - apply (generate_passes_through (RT := world_500)
             example_client "invoice" (PBool true) "post"
             "https://api.example.com/v1/invoice"
             (<["headers" :=
                  PDict {["Content-type" := PStr "application/json"]}]>
                {["data" := PStr "true"]})
             ) with (resp := canned_response 500 "Internal Server Error").
    + vm_compute. right. now left.
    + reflexivity.
Defined.

Lemma get_service_url_path_witness :
  HTTPClientInterface.get_service_url (RT := world_no_join)
    example_config "users" None = inr "https://api.example.com/v1/" /\
  HTTPClientInterface.get_service_url (RT := world_no_join)
    example_config "users" (Some "") = inr "https://api.example.com/v1/" /\
  HTTPClientInterface.get_service_url (RT := world_ok)
    example_config "users" (Some "42") = inr "https://api.example.com/v1/42".
Proof.
  destruct (get_service_url_path (RT := world_no_join) example_config "users"
              "https://api.example.com/v1/") as (H1 & H2 & _).
  { vm_compute. reflexivity. }
  destruct (get_service_url_path (RT := world_ok) example_config "users"
              "https://api.example.com/v1/") as (_ & _ & H3).
  { vm_compute. reflexivity. }
  split; [exact H1 | split; [exact H2 |]].
  rewrite (H3 "42"); [reflexivity | discriminate].
Defined.

(** * Further properties of the code *)

(** ** [_load_json] and [json_request], exit by exit *)

Section json_client_exits.
Context `{RT : Runtime}.

Lemma not_JSONDecodeError e :
  e <> JSONDecodeError -> is_JSONDecodeError e = false.
Proof. now destruct e. Qed.

Lemma load_json_bad_json resp self body :
  Response.status_code resp = 200 ->
  Response.text resp = inr body ->
  json_loads body = inl JSONDecodeError ->
  HTTPClient._load_json resp self =
    Outcome (inr PNone) self
      [PrintExc JSONDecodeError;
       Log HTTPClient._logger ERROR (PStr "bad json from %s")
           [PStr (Response.url resp)]].
Proof.
  intros Hs Ht Hj. unfold HTTPClient._load_json, bind, try_except_on.
  rewrite Hs, Ht. simpl. now rewrite Hj.
Qed.

(** A [JSONDecodeError] out of [resp.text] is inside the [try] as well. *)
Lemma load_json_bad_text resp self :
  Response.status_code resp = 200 ->
  Response.text resp = inl JSONDecodeError ->
  HTTPClient._load_json resp self =
    Outcome (inr PNone) self
      [PrintExc JSONDecodeError;
       Log HTTPClient._logger ERROR (PStr "bad json from %s")
           [PStr (Response.url resp)]].
Proof.
  intros Hs Ht. unfold HTTPClient._load_json, bind, try_except_on.
  now rewrite Hs, Ht.
Qed.

Lemma load_json_unreadable resp self e :
  Response.status_code resp = 200 ->
  Response.text resp = inl e ->
  e <> JSONDecodeError ->
  HTTPClient._load_json resp self = Outcome (inl e) self [].
Proof.
  intros Hs Ht He. unfold HTTPClient._load_json, bind, try_except_on.
  rewrite Hs, Ht. simpl. now rewrite (not_JSONDecodeError e He).
Qed.

Lemma load_json_loads_raises resp self body e :
  Response.status_code resp = 200 ->
  Response.text resp = inr body ->
  json_loads body = inl e ->
  e <> JSONDecodeError ->
  HTTPClient._load_json resp self = Outcome (inl e) self [].
Proof.
  intros Hs Ht Hj He. unfold HTTPClient._load_json, bind, try_except_on.
  rewrite Hs, Ht. simpl. rewrite Hj. simpl.
  now rewrite (not_JSONDecodeError e He).
Qed.

Lemma exn_eq_JSONDecodeError e : {e = JSONDecodeError} + {e <> JSONDecodeError}.
Proof. destruct e; (now left) || (now right). Qed.

Lemma load_json_cases resp self :
  load_json_exit resp self (HTTPClient._load_json resp self).
Proof.
  destruct (Z.eq_dec (Response.status_code resp) 200) as [Hs|Hs].
  - destruct (Response.text resp) as [e|body] eqn:Ht.
    + destruct (exn_eq_JSONDecodeError e) as [->|He].
      * rewrite (load_json_bad_text _ _ Hs Ht).
        apply exit_bad_json; [assumption | now left].
      * rewrite (load_json_unreadable _ _ _ Hs Ht He). now constructor.
    + destruct (json_loads body) as [e|v] eqn:Hj.
      * destruct (exn_eq_JSONDecodeError e) as [->|He].
        -- rewrite (load_json_bad_json _ _ _ Hs Ht Hj).
           apply exit_bad_json; [assumption | right; eauto].
        -- rewrite (load_json_loads_raises _ _ _ _ Hs Ht Hj He).
           now apply exit_loads_raises with body.
      * destruct (isinstance_dict v) eqn:Hd.
        -- destruct v; try discriminate.
           rewrite (load_json_mapping _ _ _ _ Hs Ht Hj). cbv zeta.
           destruct (truthy (default PNone (d !! "code"))) eqn:Hc.
           ++ now apply exit_code with body.
           ++ now apply exit_ok with body.
        -- rewrite (load_json_not_mapping _ _ _ _ Hs Ht Hj Hd).
           now apply exit_not_mapping with body.
  - rewrite load_json_non200 by assumption. now constructor.
Qed.

Lemma log_request_as_curl_events method url data level self :
  events (HTTPClient.log_request_as_curl method url data level self)
  = curl_events method url data (default DEBUG level).
Proof. now rewrite log_request_as_curl_run. Qed.

(** [after_response] in terms of the exit [_load_json] takes. *)
Lemma after_response_run method url data resp self :
  HTTPClient.after_response method url data resp self =
    let o := HTTPClient._load_json resp self in
    match result o with
    | inl e => Outcome (inl e) self (events o)
    | inr v =>
        if is_None v then
          Outcome (inr PNone) self
            (events o
             ++ events (HTTPClient.log_resp_content resp None self)
             ++ curl_events method url data DEBUG)
        else Outcome (inr v) self (events o ++ curl_events method url data DEBUG)
    end.
Proof.
  unfold HTTPClient.after_response. cbv zeta.
  destruct (result (HTTPClient._load_json resp self)) as [e|v] eqn:Hres.
  - rewrite (bind_inl _ _ _ _ Hres). now rewrite preserves_load_json.
  - rewrite (bind_inr _ _ _ _ Hres). rewrite preserves_load_json.
    destruct (is_None v).
    + rewrite (bind_inr _ _ self tt) by apply log_resp_content_returns.
      rewrite preserves_log_resp_content.
      rewrite (bind_inr _ _ self tt) by now rewrite log_request_as_curl_run.
      rewrite log_request_as_curl_run. cbn [self_after events result ret].
      now rewrite app_nil_r.
    + rewrite (bind_inr _ _ self tt) by now rewrite log_request_as_curl_run.
      rewrite log_request_as_curl_run. cbn [self_after events result ret].
      now rewrite app_nil_r.
Qed.

(** [json_request] on a 200 answer whose body is not JSON: the decoding error
    is handled, its traceback printed, "bad json" logged, and the call goes
    the way of every failure: body preview, curl reproduction, [None]. *)
Theorem json_request_bad_json self method path data kwargs m u kw resp body :
  In (Request m u kw)
     (events (HTTPClient.json_request method path data kwargs self)) ->
  requests_request m u kw = inr resp ->
  Response.status_code resp = 200 ->
  Response.text resp = inr body ->
  json_loads body = inl JSONDecodeError ->
  HTTPClient.json_request method path data kwargs self =
    Outcome (inr PNone) self
      (Request m u kw
       :: PrintExc JSONDecodeError
       :: Log HTTPClient._logger ERROR (PStr "bad json from %s")
              [PStr (Response.url resp)]
       :: events (HTTPClient.log_resp_content resp None self)
       ++ curl_events m u data DEBUG).
Proof.
  intros Hin Hr Hs Ht Hj.
  destruct (json_request_inv _ _ _ _ _ _ _ _ Hin) as (_ & _ & _ & ->).
  rewrite Hr, after_response_run. cbv zeta.
  now rewrite (load_json_bad_json _ _ _ Hs Ht Hj).
Qed.

(** An exception of the transport is not caught: it is the exception of
    [json_request], and nothing is logged about it. *)
Theorem json_request_transport_error self method path data kwargs m u kw e :
  In (Request m u kw)
     (events (HTTPClient.json_request method path data kwargs self)) ->
  requests_request m u kw = inl e ->
  HTTPClient.json_request method path data kwargs self =
    Outcome (inl e) self [Request m u kw].
Proof.
  intros Hin Hr.
  destruct (json_request_inv _ _ _ _ _ _ _ _ Hin) as (_ & _ & _ & ->).
  now rewrite Hr.
Qed.

(** When the URL cannot be joined, or the body cannot be serialized,
    [json_request] ends in that exception before anything has happened: no
    request is issued and nothing is logged. *)
Theorem json_request_prepare_error self method path data kwargs e :
  urljoin (base_url self) path = inl e \/
  (exists u, urljoin (base_url self) path = inr u /\
             is_None data = false /\ json_dumps data = inl e) ->
  HTTPClient.json_request method path data kwargs self
  = Outcome (inl e) self [].
Proof.
  rewrite json_request_unfold. unfold HTTPClient.payload_of.
  intros [Hu | (u & Hu & Hd & Hj)]; rewrite Hu; [reflexivity|].
  now rewrite Hd, Hj.
Qed.

(** An exception raised while reading [resp.text] of a 200 answer is inside
    the [try] of [_load_json], but only a [JSONDecodeError] is caught there:
    any other one leaves [json_request], with nothing logged. *)
Theorem json_request_unreadable_text
    self method path data kwargs m u kw resp e :
  In (Request m u kw)
     (events (HTTPClient.json_request method path data kwargs self)) ->
  requests_request m u kw = inr resp ->
  Response.status_code resp = 200 ->
  Response.text resp = inl e ->
  e <> JSONDecodeError ->
  HTTPClient.json_request method path data kwargs self =
    Outcome (inl e) self [Request m u kw].
Proof.
  intros Hin Hr Hs Ht He.
  destruct (json_request_inv _ _ _ _ _ _ _ _ Hin) as (_ & _ & _ & ->).
  rewrite Hr, after_response_run. cbv zeta.
  now rewrite (load_json_unreadable _ _ _ Hs Ht He).
Qed.

(** The same holds for [json.loads]: an exception of the decoder that is not
    a [JSONDecodeError] is not handled, and leaves [json_request] with
    nothing logged. *)
Theorem json_request_loads_error
    self method path data kwargs m u kw resp body e :
  In (Request m u kw)
     (events (HTTPClient.json_request method path data kwargs self)) ->
  requests_request m u kw = inr resp ->
  Response.status_code resp = 200 ->
  Response.text resp = inr body ->
  json_loads body = inl e ->
  e <> JSONDecodeError ->
  HTTPClient.json_request method path data kwargs self =
    Outcome (inl e) self [Request m u kw].
Proof.
  intros Hin Hr Hs Ht Hj He.
  destruct (json_request_inv _ _ _ _ _ _ _ _ Hin) as (_ & _ & _ & ->).
  rewrite Hr, after_response_run. cbv zeta.
  now rewrite (load_json_loads_raises _ _ _ _ Hs Ht Hj He).
Qed.

(** On success nothing is logged as an error: a 200 answer with a mapping
    whose code is absent or falsy gives the mapping, and the only record is
    the curl reproduction at DEBUG, if the logger takes it. *)
Theorem json_request_success_events
    self method path data kwargs m u kw resp body d :
  In (Request m u kw)
     (events (HTTPClient.json_request method path data kwargs self)) ->
  requests_request m u kw = inr resp ->
  Response.status_code resp = 200 ->
  Response.text resp = inr body ->
  json_loads body = inr (PDict d) ->
  truthy (default PNone (d !! "code")) = false ->
  HTTPClient.json_request method path data kwargs self =
    Outcome (inr (PDict d)) self (Request m u kw :: curl_events m u data DEBUG).
Proof.
  intros Hin Hr Hs Ht Hj Hc.
  destruct (json_request_inv _ _ _ _ _ _ _ _ Hin) as (_ & _ & _ & ->).
  rewrite Hr, after_response_run. cbv zeta.
  rewrite (load_json_mapping _ _ _ _ Hs Ht Hj). cbv zeta. now rewrite Hc.
Qed.

Lemma after_response_result_sound method url data resp self v :
  result (HTTPClient.after_response method url data resp self) = inr v ->
  v <> PNone ->
  exists body d,
    Response.status_code resp = 200 /\
    Response.text resp = inr body /\
    json_loads body = inr (PDict d) /\
    v = PDict d /\
    truthy (default PNone (d !! "code")) = false.
Proof.
  rewrite after_response_run.
  generalize (load_json_cases resp self).
  generalize (HTTPClient._load_json resp self).
  intros o Ho. destruct Ho; cbv zeta; cbn [result events is_None];
    intros Hres Hv; try discriminate; injection Hres as <-;
    try congruence.
  eauto 10.
Qed.

Lemma after_response_none_logged method url data resp self :
  result (HTTPClient.after_response method url data resp self) = inr PNone ->
  exists fmt args,
    In (Log HTTPClient._logger ERROR (PStr fmt)
            (args ++ [PStr (Response.url resp)]))
       (events (HTTPClient.after_response method url data resp self)).
Proof.
  rewrite after_response_run.
  generalize (load_json_cases resp self).
  generalize (HTTPClient._load_json resp self).
  intros o Ho. destruct Ho; cbv zeta; cbn [result events is_None];
    intros Hres; try discriminate.
  - exists "status_code %s from %s", [PInt (Response.status_code resp)].
    now left.
  - exists "bad json from %s", []. right. now left.
  - exists "non-zero code (%s) from %s", [default PNone (d !! "code")].
    now left.
Qed.

Lemma after_response_raises method url data resp self e :
  result (HTTPClient.after_response method url data resp self) = inl e ->
  Response.status_code resp = 200 /\
  ((Response.text resp = inl e /\ e <> JSONDecodeError) \/
   (exists body,
      Response.text resp = inr body /\ json_loads body = inl e /\
      e <> JSONDecodeError) \/
   (exists body v,
      Response.text resp = inr body /\ json_loads body = inr v /\
      isinstance_dict v = false /\ e = AttributeError (type_name v) "get")).
Proof.
  rewrite after_response_run.
  generalize (load_json_cases resp self).
  generalize (HTTPClient._load_json resp self).
  intros o Ho. destruct Ho; cbv zeta; cbn [result events is_None];
    intros Hres; try discriminate; injection Hres as <-.
  - split; [assumption|]. now left.
  - split; [assumption|]. right. left. eauto.
  - split; [assumption|]. right. right. eauto 10.
Qed.

(** Every stage of [json_request] that can be reached: the run stops at the
    join, at the serialization, at the transport, or in [after_response]. *)
Lemma json_request_stages self method path data kwargs :
  (exists e, urljoin (base_url self) path = inl e /\
     HTTPClient.json_request method path data kwargs self
     = Outcome (inl e) self []) \/
  (exists u e, urljoin (base_url self) path = inr u /\
     is_None data = false /\ json_dumps data = inl e /\
     HTTPClient.json_request method path data kwargs self
     = Outcome (inl e) self []) \/
  (exists m u kw,
     In (Request m u kw)
        (events (HTTPClient.json_request method path data kwargs self)) /\
     ((exists e, requests_request m u kw = inl e /\
         HTTPClient.json_request method path data kwargs self
         = Outcome (inl e) self [Request m u kw]) \/
      (exists resp, requests_request m u kw = inr resp /\
         HTTPClient.json_request method path data kwargs self =
           let o := HTTPClient.after_response m u data resp self in
           Outcome (result o) (self_after o) (Request m u kw :: events o)))).
Proof.
  rewrite json_request_unfold. unfold HTTPClient.payload_of.
  destruct (urljoin (base_url self) path) as [e|u]; [left; eauto|].
  right.
  destruct (is_None data) eqn:Hd; cbn [negb];
    [|destruct (json_dumps data) as [e|payload] eqn:Hj; [left; eauto 10|]];
    right; cbv zeta;
    eexists _, _, _;
    (destruct (requests_request _ _ _) as [e|resp] eqn:Hr;
     (split; [now left|]); [left | right]; eauto).
Qed.

(** What [json_request] returns, when it is not [None], is the decoded body
    of a 200 answer: a mapping, whose code is absent or falsy. It never
    returns a list, a string or a number. *)
Theorem json_request_result_sound self method path data kwargs v :
  result (HTTPClient.json_request method path data kwargs self) = inr v ->
  v <> PNone ->
  exists m u kw resp body d,
    In (Request m u kw)
       (events (HTTPClient.json_request method path data kwargs self)) /\
    requests_request m u kw = inr resp /\
    Response.status_code resp = 200 /\
    Response.text resp = inr body /\
    json_loads body = inr (PDict d) /\
    v = PDict d /\
    truthy (default PNone (d !! "code")) = false.
Proof.
  intros Hres Hv.
  destruct (json_request_stages self method path data kwargs)
    as [(e & _ & H) | [(u & e & _ & _ & _ & H)
       | (m & u & kw & Hin & [(e & _ & H) | (resp & Hr & H)])]];
    rewrite H in Hres; try discriminate.
  cbv zeta in Hres. cbn [result] in Hres.
  destruct (after_response_result_sound _ _ _ _ _ _ Hres Hv)
    as (body & d & ?). exists m, u, kw, resp, body, d. tauto.
Qed.

(** A [None] from [json_request] is never silent: the transport has answered
    and an error naming the URL of the response has been logged. *)
Theorem json_request_none_logged self method path data kwargs :
  result (HTTPClient.json_request method path data kwargs self) = inr PNone ->
  exists m u kw resp fmt args,
    requests_request m u kw = inr resp /\
    In (Request m u kw)
       (events (HTTPClient.json_request method path data kwargs self)) /\
    In (Log HTTPClient._logger ERROR (PStr fmt)
            (args ++ [PStr (Response.url resp)]))
       (events (HTTPClient.json_request method path data kwargs self)).
Proof.
  intros Hres.
  destruct (json_request_stages self method path data kwargs)
    as [(e & _ & H) | [(u & e & _ & _ & _ & H)
       | (m & u & kw & Hin & [(e & _ & H) | (resp & Hr & H)])]];
    rewrite H in Hres; try discriminate.
  cbv zeta in Hres. cbn [result] in Hres.
  destruct (after_response_none_logged _ _ _ _ _ Hres) as (fmt & args & Hlog).
  exists m, u, kw, resp, fmt, args. repeat split; try assumption.
  rewrite H. cbv zeta. cbn [events]. now right.
Qed.

(** The exceptions that can leave [json_request] are those of the join, of
    the serialization and of the transport, those of [resp.text] and of
    [json.loads] on a 200 answer that are not a [JSONDecodeError], and the
    [AttributeError] on a 200 answer that decodes to something that is not a
    mapping; there is no other. *)
Theorem json_request_raises_only self method path data kwargs e :
  result (HTTPClient.json_request method path data kwargs self) = inl e ->
  urljoin (base_url self) path = inl e \/
  (is_None data = false /\ json_dumps data = inl e) \/
  (exists m u kw,
     In (Request m u kw)
        (events (HTTPClient.json_request method path data kwargs self)) /\
     (requests_request m u kw = inl e \/
      exists resp,
        requests_request m u kw = inr resp /\
        Response.status_code resp = 200 /\
        ((Response.text resp = inl e /\ e <> JSONDecodeError) \/
         (exists body,
            Response.text resp = inr body /\ json_loads body = inl e /\
            e <> JSONDecodeError) \/
         (exists body v,
            Response.text resp = inr body /\ json_loads body = inr v /\
            isinstance_dict v = false /\
            e = AttributeError (type_name v) "get")))).
Proof.
  intros Hres.
  destruct (json_request_stages self method path data kwargs)
    as [(e' & Hu & H) | [(u & e' & _ & Hd & Hj & H)
       | (m & u & kw & Hin & [(e' & Hr & H) | (resp & Hr & H)])]];
    rewrite H in Hres; cbv zeta in Hres; cbn [result] in Hres.
  - injection Hres as ->. now left.
  - injection Hres as ->. right. now left.
  - injection Hres as ->. right. right. exists m, u, kw. split; [assumption|].
    now left.
  - destruct (after_response_raises _ _ _ _ _ _ Hres) as [Hs Hcase].
    right. right. exists m, u, kw. split; [assumption|]. right.
    exists resp. tauto.
Qed.

End json_client_exits.

(** ** The request [json_request] builds *)

Section json_client_request.
Context `{RT : Runtime}.

(** With a body, the request carries the serialized body and the JSON
    content type, whatever [data] or [headers] the options held: the
    caller's headers are replaced, not merged. *)
Theorem json_request_body_headers self method path data kwargs m u kw :
  In (Request m u kw)
     (events (HTTPClient.json_request method path data kwargs self)) ->
  is_None data = false ->
  exists payload,
    json_dumps data = inr payload /\
    kw !! "data" = Some (PStr payload) /\
    kw !! "headers"
    = Some (PDict {["Content-type" := PStr "application/json"]}).
Proof.
  intros Hin Hd.
  destruct (json_request_inv _ _ _ _ _ _ _ _ Hin)
    as (_ & _ & (payload & Hp & ->) & _).
  unfold HTTPClient.payload_of in Hp. rewrite Hd in Hp. simpl in Hp.
  exists payload. unfold HTTPClient.sent_kwargs. rewrite Hd. simpl.
  split; [assumption|]. now simplify_map_eq.
Qed.

(** The other options reach the transport as the caller gave them: every
    key but [timeout], and but [data] and [headers] when there is a body,
    has in the request the value it has in the options. *)
Theorem json_request_options_pass self method path data kwargs m u kw k :
  In (Request m u kw)
     (events (HTTPClient.json_request method path data kwargs self)) ->
  k <> "timeout" ->
  is_None data = true \/ (k <> "data" /\ k <> "headers") ->
  kw !! k = kwargs !! k.
Proof.
  intros Hin Hk Hcase.
  destruct (json_request_inv _ _ _ _ _ _ _ _ Hin)
    as (_ & _ & (payload & _ & ->) & _).
  unfold HTTPClient.sent_kwargs, setdefault.
  destruct Hcase as [Hd | [Hk1 Hk2]].
  - rewrite Hd. simpl. destruct (kwargs !! "timeout"); now simplify_map_eq.
  - destruct (negb (is_None data));
      destruct (kwargs !! "timeout"); now simplify_map_eq.
Qed.

Lemma bind_assert_true {A} (k : unit -> M A) self :
  bind (assert true) k self = k tt self.
Proof. unfold bind. simpl. apply outcome_eta. Qed.

Lemma json_request_one_request self method path data kwargs :
  (length (requests_of
             (events (HTTPClient.json_request method path data kwargs self)))
   <= 1)%nat.
Proof.
  rewrite json_request_unfold.
  destruct (urljoin (base_url self) path) as [e|u]; [simpl; lia|].
  destruct (HTTPClient.payload_of data) as [e|payload]; [simpl; lia|].
  cbv zeta. destruct (requests_request _ _ _) as [e|resp]; [simpl; lia|].
  cbn [events]. unfold requests_of. simpl.
  change (List.filter is_request ?l) with (requests_of l).
  rewrite (offline_requests_of _ self) by apply offline_after_response.
  simpl. lia.
Qed.

(** No retry: a call of [json_request], [json_get] or [json_post] hands at
    most one request to the transport, whatever the answer. *)
Theorem json_client_one_request self :
  (forall method path data kwargs,
     (length (requests_of
        (events (HTTPClient.json_request method path data kwargs self)))
      <= 1)%nat) /\
  (forall path kwargs,
     (length (requests_of (events (HTTPClient.json_get path kwargs self)))
      <= 1)%nat) /\
  (forall path data kwargs,
     (length (requests_of
        (events (HTTPClient.json_post path data kwargs self)))
      <= 1)%nat).
Proof.
  split; [|split]; intros.
  - apply json_request_one_request.
  - unfold HTTPClient.json_get.
    destruct (negb (contains "data" kwargs)).
    + rewrite bind_assert_true. apply json_request_one_request.
    + simpl. lia.
  - unfold HTTPClient.json_post.
    destruct (negb (contains "data" kwargs)).
    + rewrite bind_assert_true. apply json_request_one_request.
    + simpl. lia.
Qed.

(** [json_post] is [json_request] with method POST: the request it issues
    has that method, and carries the serialized body exactly when [data] is
    not [None]. *)
Theorem json_post_request self path data kwargs m u kw :
  kwargs !! "data" = None ->
  In (Request m u kw) (events (HTTPClient.json_post path data kwargs self)) ->
  HTTPClient.json_post path data kwargs self
  = HTTPClient.json_request "POST" path data kwargs self /\
  m = "POST" /\
  (is_None data = true -> kw !! "data" = None) /\
  (is_None data = false ->
   exists payload,
     json_dumps data = inr payload /\ kw !! "data" = Some (PStr payload)).
Proof.
  intros Hn.
  assert (HTTPClient.json_post path data kwargs self
          = HTTPClient.json_request "POST" path data kwargs self) as Heq.
  { unfold HTTPClient.json_post, contains. rewrite Hn.
    apply bind_assert_true. }
  rewrite Heq. intros Hin. split; [reflexivity|].
  destruct (json_request_inv _ _ _ _ _ _ _ _ Hin)
    as (-> & _ & (payload & Hp & ->) & _).
  split; [reflexivity|].
  unfold HTTPClient.payload_of in Hp. unfold HTTPClient.sent_kwargs, setdefault.
  split; intros Hd; rewrite Hd in *; simpl in *.
  - destruct (kwargs !! "timeout"); now simplify_map_eq.
  - exists payload. split; [assumption|]. now simplify_map_eq.
Qed.

End json_client_request.

(** ** The body preview of [log_resp_content] *)

Lemma substring_length_le n s : (String.length (substring 0 n s) <= n)%nat.
Proof.
  revert s. induction n as [|n IH]; intros [|c s]; simpl; try lia.
  specialize (IH s). lia.
Qed.

Lemma substring_is_prefix n s : is_prefix_of (substring 0 n s) s.
Proof.
  revert s. induction n as [|n IH]; intros [|c s].
  - now exists "".
  - now exists (String c s).
  - now exists "".
  - destruct (IH s) as [rest Hrest]. exists rest.
    change (String c s = String c (String.append (substring 0 n s) rest)).
    now rewrite <- Hrest.
Qed.

Lemma substring_whole n s :
  (String.length s <= n)%nat -> substring 0 n s = s.
Proof.
  revert s. induction n as [|n IH]; intros [|c s]; simpl; intros Hle;
    try reflexivity; try lia.
  rewrite IH; [reflexivity | lia].
Qed.

Section preview.
Context `{RT : Runtime}.

(** What [log_resp_content] logs is a preview: at the level asked for, only
    if the logger takes it, a prefix of the text of at most 255 characters
    or, when the text cannot be read, a prefix of the raw content of at most
    255 bytes. *)
Theorem log_resp_content_preview resp level self lg lv msg args :
  In (Log lg lv msg args)
     (events (HTTPClient.log_resp_content resp level self)) ->
  lv = default ERROR level /\
  isEnabledFor HTTPClient._logger lv = true /\
  args = [] /\
  match msg with
  | PStr s =>
      (String.length s <= 255)%nat /\
      exists t, Response.text resp = inr t /\ is_prefix_of s t
  | PBytes b =>
      (length b <= 255)%nat /\
      (exists e, Response.text resp = inl e) /\
      exists rest, Response.content resp = (b ++ rest)%list
  | _ => False
  end.
Proof.
  unfold HTTPClient.log_resp_content, try_except, bind. cbv zeta.
  destruct (isEnabledFor HTTPClient._logger (default ERROR level)) eqn:Hen;
    [|intros []].
  destruct (Response.text resp) as [e|t]; simpl.
  - intros [H|[H|[]]]; [|discriminate]. injection H as <- <- <- <-.
    repeat split; try assumption.
    + apply firstn_le_length.
    + eauto.
    + exists (skipn 255 (Response.content resp)).
      symmetry. apply firstn_skipn.
  - intros [H|[]]. injection H as <- <- <- <-.
    repeat split; try assumption.
    + apply substring_length_le.
    + exists t. split; [reflexivity | apply substring_is_prefix].
Qed.

(** A text of 255 characters or fewer is logged whole. *)
Theorem log_resp_content_whole resp level self t :
  isEnabledFor HTTPClient._logger (default ERROR level) = true ->
  Response.text resp = inr t ->
  (String.length t <= 255)%nat ->
  HTTPClient.log_resp_content resp level self =
    Outcome (inr tt) self
      [Log HTTPClient._logger (default ERROR level) (PStr t) []].
Proof.
  intros Hen Ht Hlen.
  unfold HTTPClient.log_resp_content, try_except, bind. cbv zeta.
  rewrite Hen, Ht. simpl. now rewrite (substring_whole 255 t Hlen).
Qed.

End preview.

(** ** Logger calls that can be formatted *)

Create HintDb events.

Lemma every_event_ret {A} P (a : A) : every_event P (ret a).
Proof. intros self. constructor. Qed.

Lemma every_event_raise {A} P e : every_event P (@raise A e).
Proof. intros self. constructor. Qed.

Lemma every_event_get_self P : every_event P get_self.
Proof. intros self. constructor. Qed.

Lemma every_event_lift {A} P (r : exn + A) : every_event P (lift r).
Proof. destruct r; intros self; constructor. Qed.

Lemma every_event_assert P b : every_event P (assert b).
Proof. destruct b; intros self; constructor. Qed.

Lemma every_event_py_get P v key : every_event P (py_get v key).
Proof. destruct v; intros self; constructor. Qed.

Lemma every_event_emit (P : event -> Prop) ev : P ev -> every_event P (emit ev).
Proof. intros H self. now repeat constructor. Qed.

Lemma every_event_bind {A B} P (m : M A) (k : A -> M B) :
  every_event P m -> (forall a, every_event P (k a)) ->
  every_event P (bind m k).
Proof.
  intros Hm Hk self. unfold bind.
  destruct (result (m self)) as [e|a] eqn:E; simpl.
  - apply Hm.
  - apply Forall_app. split; [apply Hm | apply Hk].
Qed.

Lemma every_event_try_except {A} P (m : M A) (h : exn -> M A) :
  every_event P m -> (forall e, every_event P (h e)) ->
  every_event P (try_except m h).
Proof.
  intros Hm Hh self. unfold try_except.
  destruct (result (m self)) as [e|a] eqn:E; simpl.
  - apply Forall_app. split; [apply Hm | apply Hh].
  - apply Hm.
Qed.

Lemma every_event_try_except_on {A} P caught (m : M A) (h : exn -> M A) :
  every_event P m -> (forall e, every_event P (h e)) ->
  every_event P (try_except_on caught m h).
Proof.
  intros Hm Hh self. unfold try_except_on.
  destruct (result (m self)) as [e|a] eqn:E; [|apply Hm].
  destruct (caught e); simpl; [|apply Hm].
  apply Forall_app. split; [apply Hm | apply Hh].
Qed.

#[export] Hint Resolve every_event_ret every_event_raise every_event_get_self
  every_event_lift every_event_assert every_event_py_get : events.

(** The body of a method, call by call, with [tac] for each logger call. *)
Ltac by_calls tac :=
  repeat first
    [ progress intros
    | apply every_event_bind | apply every_event_try_except
    | apply every_event_try_except_on
    | apply every_event_emit; solve [tac]
    | solve [auto with events]
    | match goal with
      | |- context [if ?b then _ else _] => destruct b
      | |- context [match ?x with _ => _ end] => destruct x
      end ].

Ltac formattable_call :=
  first [ exact I | now left | right; eexists; split; reflexivity ].

Section formats.
Context `{RT : Runtime}.

Lemma formattable_json_request method path data kwargs :
  every_event formattable (HTTPClient.json_request method path data kwargs).
Proof.
  unfold HTTPClient.json_request, HTTPClient.get_url, HTTPClient.request,
    HTTPClient._load_json, HTTPClient.err, HTTPClient.log_resp_content,
    HTTPClient.log_request_as_curl.
  by_calls formattable_call.
Qed.

(** Every logger call of the JSON client can be formatted: it has no
    arguments, or as many [%s] in its format string as arguments. *)
Theorem json_client_logs_formattable self :
  (forall method path data kwargs,
     Forall formattable
       (events (HTTPClient.json_request method path data kwargs self))) /\
  (forall path kwargs,
     Forall formattable (events (HTTPClient.json_get path kwargs self))) /\
  (forall path data kwargs,
     Forall formattable (events (HTTPClient.json_post path data kwargs self))).
Proof.
  split; [|split]; intros.
  - apply formattable_json_request.
  - unfold HTTPClient.json_get.
    apply every_event_bind; [auto with events|].
    intros _. apply formattable_json_request.
  - unfold HTTPClient.json_post.
    apply every_event_bind; [auto with events|].
    intros _. apply formattable_json_request.
Qed.

End formats.

(** ** The deprecated wrapper and the clients it hands out *)

Section services.
Context `{RT : Runtime}.

(** An unknown service name is a [KeyError] with that name, from the lookup
    as from [get_service_url], with or without a path. *)
Theorem service_unknown (cfg : HTTPClientInterface.t) (service_name : string) :
  HTTPClientInterface._upstream_config cfg !! service_name = None ->
  HTTPClientInterface.getitem cfg service_name = inl (KeyError service_name) /\
  forall path,
    HTTPClientInterface.get_service_url cfg service_name path
    = inl (KeyError service_name).
Proof.
  intros Hc.
  unfold HTTPClientInterface.getitem, HTTPClientInterface.get_service_url.
  now rewrite Hc.
Qed.

(** When the lookup of a service succeeds, the client it hands out resolves
    a non-empty path to what [get_service_url] gives for the same service
    and path, URL or exception, and does nothing else. *)
Theorem service_client_get_url
    (cfg : HTTPClientInterface.t) (service_name path : string)
    (client : _BaseHTTPClient) :
  HTTPClientInterface.getitem cfg service_name = inr client ->
  path <> "" ->
  HTTPClient.get_url path client =
    Outcome (HTTPClientInterface.get_service_url cfg service_name (Some path))
            client [].
Proof.
  unfold HTTPClientInterface.getitem, HTTPClientInterface.get_service_url.
  destruct (HTTPClientInterface._upstream_config cfg !! service_name)
    as [base|]; [|discriminate].
  intros [= <-] Hp. simpl. apply String.eqb_neq in Hp. rewrite Hp. simpl.
  unfold HTTPClient.get_url, bind. simpl.
  now destruct (urljoin base path).
Qed.

(** A request made through such a client goes to the URL that
    [get_service_url] computes for the service and the path. *)
Theorem service_client_request_url
    (cfg : HTTPClientInterface.t) (service_name path method : string)
    (client : _BaseHTTPClient) data kwargs m u kw :
  HTTPClientInterface.getitem cfg service_name = inr client ->
  path <> "" ->
  In (Request m u kw)
     (events (HTTPClient.json_request method path data kwargs client)) ->
  HTTPClientInterface.get_service_url cfg service_name (Some path) = inr u.
Proof.
  unfold HTTPClientInterface.getitem, HTTPClientInterface.get_service_url.
  destruct (HTTPClientInterface._upstream_config cfg !! service_name)
    as [base|]; [|discriminate].
  intros [= <-] Hp Hin.
  destruct (json_request_inv _ _ _ _ _ _ _ _ Hin) as (_ & Hu & _).
  simpl in *. apply String.eqb_neq in Hp. now rewrite Hp.
Qed.

End services.

(** ** The request of the document client *)

Section pdf_request.
Context `{RT : Runtime}.

(** [_generate] hands the transport one request: a [post] to the joined URL
    with the serialized data as body and the JSON content type, and nothing
    else; in particular no timeout. *)
Theorem generate_request self tpl_path data u payload :
  urljoin (base_url self) tpl_path = inr u ->
  json_dumps data = inr payload ->
  exists kw,
    requests_of (events (PDFClient._generate tpl_path data self))
    = [Request "post" u kw] /\
    events (PDFClient.generate tpl_path data self)
    = events (PDFClient._generate tpl_path data self) /\
    kw !! "data" = Some (PStr payload) /\
    kw !! "headers"
    = Some (PDict {["Content-type" := PStr "application/json"]}) /\
    forall k, k <> "data" -> k <> "headers" -> kw !! k = None.
Proof.
  intros Hu Hp. eexists. split; [|split].
  - rewrite generate_unfold', Hu, Hp. cbv zeta.
    destruct (requests_request _ _ _); reflexivity.
  - now rewrite generate_fst.
  - repeat split; intros; now simplify_map_eq.
Qed.

(** When the URL cannot be joined or the data cannot be serialized, both
    [_generate] and [generate] end in that exception with nothing done: no
    request, and no log record either, the first record coming after the
    serialization. *)
Theorem generate_prepare_error self tpl_path data e :
  urljoin (base_url self) tpl_path = inl e \/
  (exists u, urljoin (base_url self) tpl_path = inr u /\
             json_dumps data = inl e) ->
  PDFClient._generate tpl_path data self = Outcome (inl e) self [] /\
  PDFClient.generate tpl_path data self = Outcome (inl e) self [].
Proof.
  intros H.
  assert (PDFClient._generate tpl_path data self = Outcome (inl e) self [])
    as Hg.
  { rewrite generate_unfold'.
    destruct H as [Hu | (u & Hu & Hj)]; rewrite Hu; [reflexivity|].
    now rewrite Hj. }
  split; [exact Hg|]. rewrite generate_fst, Hg. reflexivity.
Qed.

(** The record about the redirected URL is written only once the transport
    has answered, and it is not one the logger can format: the URL is passed
    as an argument to a format string that has no place for it. *)
Theorem generate_redirect_record self tpl_path data m u kw :
  In (Request m u kw) (events (PDFClient._generate tpl_path data self)) ->
  match requests_request m u kw with
  | inl _ =>
      Forall formattable (events (PDFClient._generate tpl_path data self))
  | inr resp =>
      exists before,
        events (PDFClient._generate tpl_path data self)
        = (before ++ [Log PDFClient._logger INFO (PStr "redirected url:")
                          [PStr (Response.url resp)]])%list /\
        Forall formattable before /\
        ~ formattable (Log PDFClient._logger INFO (PStr "redirected url:")
                           [PStr (Response.url resp)])
  end.
Proof.
  rewrite generate_unfold'.
  destruct (urljoin (base_url self) tpl_path) as [e|url]; [intros []|].
  destruct (json_dumps data) as [e|payload]; [intros []|].
  cbv zeta. intros Hin.
  assert (Request m u kw =
          Request "post" url
            (<["headers" :=
                 PDict {["Content-type" := PStr "application/json"]}]>
               ({["data" := PStr payload]} : kwargs_t))) as Heq.
  { destruct (requests_request "post" url _); simpl in Hin;
      intuition congruence. }
  injection Heq as -> -> ->.
  assert (Forall formattable
            [Log PDFClient._logger INFO (PStr "initial url: %s") [PStr url];
             Request "post" url
               (<["headers" :=
                    PDict {["Content-type" := PStr "application/json"]}]>
                  ({["data" := PStr payload]} : kwargs_t))]) as Hbefore.
  { constructor; [right; eexists; split; reflexivity|].
    constructor; [exact I | constructor]. }
  destruct (requests_request "post" url _) as [e|resp]; cbn [events].
  - exact Hbefore.
  - eexists. split; [reflexivity|]. split; [exact Hbefore|].
    intros [H | (fmt & Hfmt & Hn)]; [discriminate|].
    injection Hfmt as <-. discriminate.
Qed.

End pdf_request.

(** ** Concrete runs of the further properties *)

Lemma json_request_bad_json_witness :
  HTTPClient.json_request (RT := world_html) "get" "users" PNone ∅
    example_client =
  Outcome (inr PNone) example_client
    [Request "GET" example_url {["timeout" := PInt 30]};
     PrintExc JSONDecodeError;
     Log HTTPClient._logger ERROR (PStr "bad json from %s") [PStr example_url];
     Log HTTPClient._logger ERROR (PStr "<html>Bad Gateway</html>") [];
     Log HTTPClient._logger DEBUG
         (PStr "curl -X GET https://api.example.com/v1/users") []].
Proof.
  etransitivity.
  - apply (json_request_bad_json (RT := world_html)
             example_client "get" "users" PNone ∅
             "GET" example_url {["timeout" := PInt 30]}
             (canned_response 200 body_html) body_html).
    + vm_compute. now left.
    + reflexivity.
    + reflexivity.
    + reflexivity.
    + vm_compute. reflexivity.
  - vm_compute. reflexivity.
Defined.

Lemma json_request_transport_error_witness :
  HTTPClient.json_request (RT := world_down) "get" "users" PNone ∅
    example_client =
  Outcome (inl (LibraryError "ConnectionError")) example_client
    [Request "GET" example_url {["timeout" := PInt 30]}].
Proof.
  apply (json_request_transport_error (RT := world_down)
           example_client "get" "users" PNone ∅
           "GET" example_url {["timeout" := PInt 30]}).
  - vm_compute. now left.
  - reflexivity.
Defined.

Lemma json_request_prepare_error_witness :
  HTTPClient.json_request (RT := world_no_join) "get" "users" PNone ∅
    example_client
  = Outcome (inl (LibraryError "ValueError")) example_client [] /\
  HTTPClient.json_request (RT := world_ok) "post" "users" (PInt 1) ∅
    example_client
  = Outcome (inl (LibraryError "TypeError")) example_client [].
Proof.
  split.
  - apply (json_request_prepare_error (RT := world_no_join)).
    left. reflexivity.
  - apply (json_request_prepare_error (RT := world_ok)).
    right. exists example_url. repeat split.
Defined.

Lemma json_request_unreadable_text_witness :
  HTTPClient.json_request (RT := world_unreadable) "get" "users" PNone ∅
    example_client =
  Outcome (inl (LibraryError "RuntimeError")) example_client
    [Request "GET" example_url {["timeout" := PInt 30]}].
Proof.
  apply (json_request_unreadable_text (RT := world_unreadable)
           example_client "get" "users" PNone ∅
           "GET" example_url {["timeout" := PInt 30]}
           (unreadable_response 200)).
  - vm_compute. now left.
  - reflexivity.
  - reflexivity.
  - reflexivity.
  - discriminate.
Defined.

Lemma json_request_loads_error_witness :
  HTTPClient.json_request (RT := world_deep) "get" "users" PNone ∅
    example_client =
  Outcome (inl (LibraryError "RecursionError")) example_client
    [Request "GET" example_url {["timeout" := PInt 30]}].
Proof.
  apply (json_request_loads_error (RT := world_deep)
           example_client "get" "users" PNone ∅
           "GET" example_url {["timeout" := PInt 30]}
           (canned_response 200 "[[[[[[[[") "[[[[[[[[").
  - vm_compute. now left.
  - reflexivity.
  - reflexivity.
  - reflexivity.
  - reflexivity.
  - discriminate.
Defined.

Lemma json_request_success_events_witness :
  HTTPClient.json_request (RT := world_ok) "get" "users" PNone ∅
    example_client =
  Outcome (inr (PDict (<["value" := PInt 1]> {["code" := PInt 0]})))
    example_client
    [Request "GET" example_url {["timeout" := PInt 30]};
     Log HTTPClient._logger DEBUG
         (PStr "curl -X GET https://api.example.com/v1/users") []].
Proof.
  etransitivity.
  - apply (json_request_success_events (RT := world_ok)
             example_client "get" "users" PNone ∅
             "GET" example_url {["timeout" := PInt 30]}
             (canned_response 200 body_ok) body_ok
             (<["value" := PInt 1]> {["code" := PInt 0]})).
    + vm_compute. now left.
    + reflexivity.
    + reflexivity.
    + reflexivity.
    + vm_compute. reflexivity.
    + vm_compute. reflexivity.
  - vm_compute. reflexivity.
Defined.

Lemma json_request_result_sound_witness :
  exists m u kw resp body d,
    In (Request m u kw)
       (events (HTTPClient.json_request (RT := world_ok) "get" "users" PNone ∅
                  example_client)) /\
    requests_request (Runtime := world_ok) m u kw = inr resp /\
    Response.status_code resp = 200 /\
    Response.text resp = inr body /\
    json_loads (Runtime := world_ok) body = inr (PDict d) /\
    PDict (<["value" := PInt 1]> {["code" := PInt 0]}) = PDict d /\
    truthy (default PNone (d !! "code")) = false.
Proof.
  apply (json_request_result_sound (RT := world_ok)
           example_client "get" "users" PNone ∅).
  - vm_compute. reflexivity.
  - discriminate.
Defined.

Lemma json_request_none_logged_witness :
  exists m u kw resp fmt args,
    requests_request (Runtime := world_code7) m u kw = inr resp /\
    In (Request m u kw)
       (events (HTTPClient.json_request (RT := world_code7) "get" "users"
                  PNone ∅ example_client)) /\
    In (Log HTTPClient._logger ERROR (PStr fmt)
            (args ++ [PStr (Response.url resp)]))
       (events (HTTPClient.json_request (RT := world_code7) "get" "users"
                  PNone ∅ example_client)).
Proof.
  apply (json_request_none_logged (RT := world_code7)
           example_client "get" "users" PNone ∅).
  vm_compute. reflexivity.
Defined.

Lemma json_request_raises_only_witness :
  let run :=
    HTTPClient.json_request (RT := world_list) "get" "users" PNone ∅
      example_client in
  let e := AttributeError "list" "get" in
  urljoin (Runtime := world_list) (base_url example_client) "users" = inl e \/
  (is_None PNone = false /\ json_dumps (Runtime := world_list) PNone = inl e) \/
  (exists m u kw,
     In (Request m u kw) (events run) /\
     (requests_request (Runtime := world_list) m u kw = inl e \/
      exists resp,
        requests_request (Runtime := world_list) m u kw = inr resp /\
        Response.status_code resp = 200 /\
        ((Response.text resp = inl e /\ e <> JSONDecodeError) \/
         (exists body,
            Response.text resp = inr body /\
            json_loads (Runtime := world_list) body = inl e /\
            e <> JSONDecodeError) \/
         (exists body v,
            Response.text resp = inr body /\
            json_loads (Runtime := world_list) body = inr v /\
            isinstance_dict v = false /\
            e = AttributeError (type_name v) "get")))).
Proof.
  cbv zeta.
  apply (json_request_raises_only (RT := world_list)
           example_client "get" "users" PNone ∅).
  vm_compute. reflexivity.
Defined.

Lemma json_request_body_headers_witness :
  let kwargs : kwargs_t := {["headers" := PDict {["X-Token" := PStr "t"]}]} in
  let kw : kwargs_t :=
    <["headers" := PDict {["Content-type" := PStr "application/json"]}]>
      (<["data" := PStr "true"]> (<["timeout" := PInt 30]> kwargs)) in
  exists payload,
    json_dumps (Runtime := world_ok) (PBool true) = inr payload /\
    kw !! "data" = Some (PStr payload) /\
    kw !! "headers"
    = Some (PDict {["Content-type" := PStr "application/json"]}).
Proof.
  cbv zeta.
  apply (json_request_body_headers (RT := world_ok)
           example_client "post" "users" (PBool true)
           {["headers" := PDict {["X-Token" := PStr "t"]}]}
           "POST" example_url).
  - vm_compute. now left.
  - reflexivity.
Defined.

Lemma json_request_options_pass_witness :
  let kwargs : kwargs_t := {["params" := PStr "page=2"]} in
  (<["timeout" := PInt 30]> kwargs) !! "params" = kwargs !! "params".
Proof.
  cbv zeta.
  apply (json_request_options_pass (RT := world_ok)
           example_client "get" "users" PNone {["params" := PStr "page=2"]}
           "GET" example_url).
  - vm_compute. now left.
  - discriminate.
  - left. reflexivity.
Defined.

Lemma json_post_request_witness :
  let kw : kwargs_t :=
    <["headers" := PDict {["Content-type" := PStr "application/json"]}]>
      (<["data" := PStr "true"]> {["timeout" := PInt 30]}) in
  HTTPClient.json_post (RT := world_ok) "users" (PBool true) ∅ example_client
  = HTTPClient.json_request (RT := world_ok) "POST" "users" (PBool true) ∅
      example_client /\
  "POST" = "POST" /\
  (is_None (PBool true) = true -> kw !! "data" = None) /\
  (is_None (PBool true) = false ->
   exists payload,
     json_dumps (Runtime := world_ok) (PBool true) = inr payload /\
     kw !! "data" = Some (PStr payload)).
Proof.
  cbv zeta.
  apply (json_post_request (RT := world_ok)
           example_client "users" (PBool true) ∅ "POST" example_url).
  - reflexivity.
  - vm_compute. now left.
Defined.

Lemma log_resp_content_preview_witness :
  ERROR = default ERROR None /\
  isEnabledFor (Runtime := world_500) HTTPClient._logger ERROR = true /\
  @nil pyval = [] /\
  (String.length "Internal Server Error" <= 255)%nat /\
  exists t,
    Response.text (canned_response 500 "Internal Server Error") = inr t /\
    is_prefix_of "Internal Server Error" t.
Proof.
  apply (log_resp_content_preview (RT := world_500)
           (canned_response 500 "Internal Server Error") None example_client
           HTTPClient._logger ERROR (PStr "Internal Server Error") []).
  vm_compute. now left.
Defined.

Lemma log_resp_content_whole_witness :
  HTTPClient.log_resp_content (RT := world_500)
    (canned_response 500 "Internal Server Error") None example_client =
  Outcome (inr tt) example_client
    [Log HTTPClient._logger ERROR (PStr "Internal Server Error") []].
Proof.
  apply (log_resp_content_whole (RT := world_500)
           (canned_response 500 "Internal Server Error") None example_client
           "Internal Server Error").
  - reflexivity.
  - reflexivity.
  - vm_compute. lia.
Defined.

Lemma service_unknown_witness :
  HTTPClientInterface.getitem example_config "orders"
  = inl (KeyError "orders") /\
  forall path,
    HTTPClientInterface.get_service_url (RT := world_ok)
      example_config "orders" path
    = inl (KeyError "orders").
Proof.
  apply (service_unknown (RT := world_ok) example_config "orders").
  vm_compute. reflexivity.
Defined.

Lemma service_client_get_url_witness :
  HTTPClient.get_url (RT := world_ok) "42" example_client =
    Outcome (HTTPClientInterface.get_service_url (RT := world_ok)
               example_config "users" (Some "42"))
            example_client [].
Proof.
  apply (service_client_get_url (RT := world_ok) example_config "users" "42"
           example_client).
  - vm_compute. reflexivity.
  - discriminate.
Defined.

Lemma service_client_request_url_witness :
  HTTPClientInterface.get_service_url (RT := world_ok)
    example_config "users" (Some "users")
  = inr "https://api.example.com/v1/users".
Proof.
  apply (service_client_request_url (RT := world_ok) example_config
           "users" "users" "get" example_client PNone ∅
           "GET" "https://api.example.com/v1/users"
           {["timeout" := PInt 30]}).
  - vm_compute. reflexivity.
  - discriminate.
  - vm_compute. now left.
Defined.

Lemma generate_request_witness :
  exists kw : kwargs_t,
    requests_of (events (PDFClient._generate (RT := world_ok) "invoice"
                           (PBool true) example_client))
    = [Request "post" "https://api.example.com/v1/invoice" kw] /\
    events (PDFClient.generate (RT := world_ok) "invoice" (PBool true)
              example_client)
    = events (PDFClient._generate (RT := world_ok) "invoice" (PBool true)
                example_client) /\
    kw !! "data" = Some (PStr "true") /\
    kw !! "headers"
    = Some (PDict {["Content-type" := PStr "application/json"]}) /\
    forall k, k <> "data" -> k <> "headers" -> kw !! k = None.
Proof.
  apply (generate_request (RT := world_ok) example_client "invoice"
           (PBool true) "https://api.example.com/v1/invoice" "true").
  - reflexivity.
  - reflexivity.
Defined.

Lemma generate_prepare_error_witness :
  PDFClient._generate (RT := world_ok) "invoice" (PInt 1) example_client
  = Outcome (inl (LibraryError "TypeError")) example_client [] /\
  PDFClient.generate (RT := world_ok) "invoice" (PInt 1) example_client
  = Outcome (inl (LibraryError "TypeError")) example_client [].
Proof.
  apply (generate_prepare_error (RT := world_ok)).
  right. exists "https://api.example.com/v1/invoice". split; reflexivity.
Defined.

Lemma generate_redirect_record_witness :
  exists before,
    events (PDFClient._generate (RT := world_ok) "invoice" (PBool true)
              example_client)
    = (before ++ [Log PDFClient._logger INFO (PStr "redirected url:")
                      [PStr example_url]])%list /\
    Forall formattable before /\
    ~ formattable (Log PDFClient._logger INFO (PStr "redirected url:")
                       [PStr example_url]).
Proof.
  exact (generate_redirect_record (RT := world_ok) example_client "invoice"
           (PBool true) "post" "https://api.example.com/v1/invoice"
           (<["headers" :=
                PDict {["Content-type" := PStr "application/json"]}]>
              {["data" := PStr "true"]})
           ltac:(vm_compute; right; now left)).
Defined.
